(** * Vayura: the "plant a tree" form and the landing-page gate

    A shallow embedding of [src/app/plant/page.tsx] (component
    [PlantPageContent]) and of the landing page ([HomeContent]), with the
    properties of the submission workflow, of the preview-handle life cycle
    and of the session gate.

    Conventions of the embedding.
    - A JavaScript string is a [string]; every [ascii] stands for one code
      unit below 256, so the white space known to [trim] and [parseInt] is
      TAB, LF, VT, FF, CR, SPACE and NBSP.
    - A JavaScript number that holds an integer is a [Z] and [NaN] is [None];
      an integer beyond 2^53 stands for the double nearest to it: no
      comparison with 1 depends on the rounding, and [number_toString]
      prints the text of that double.
    - A React event handler is a computation in the monad [M]: it reads the
      state values captured by the render that created it (its snapshot),
      queues state updates, and calls collaborators; every call is appended
      to a chronological log.  The updates queued by one handler are
      committed together, and the effect clean-ups run at that commit. *)

From Stdlib Require Import ZArith String Ascii List Bool Lia DecimalString.
From Stdlib Require Import DecimalPos.
Import ListNotations.
Open Scope string_scope.
Open Scope Z_scope.
#[local] Set Warnings "-register-all".

(* ------------------------------------------------------------------ *)
(** ** The parts of the JavaScript library the pages use *)

Module JS.

(** White space as [String.prototype.trim] and [parseInt] see it. *)
Definition is_whitespace (c : ascii) : bool :=
  let n := N_of_ascii c in
  (n =? 9)%N || (n =? 10)%N || (n =? 11)%N || (n =? 12)%N ||
  (n =? 13)%N || (n =? 32)%N || (n =? 160)%N.

Fixpoint trimStart (s : string) : string :=
  match s with
  | EmptyString => EmptyString
  | String c r => if is_whitespace c then trimStart r else s
  end.

Fixpoint trimEnd (s : string) : string :=
  match s with
  | EmptyString => EmptyString
  | String c r =>
      match trimEnd r with
      | EmptyString => if is_whitespace c then EmptyString else String c EmptyString
      | r' => String c r'
      end
  end.

(** [s.trim()] *)
Definition trim (s : string) : string := trimEnd (trimStart s).

(** Every code unit of [s] is white space. *)
Fixpoint blank (s : string) : bool :=
  match s with
  | EmptyString => true
  | String c r => is_whitespace c && blank r
  end.

(** Truthiness of a string: only the empty string is falsy. *)
Definition truthy_string (s : string) : bool :=
  match s with EmptyString => false | _ => true end.

(** Truthiness of a string that may be [null] or [undefined]. *)
Definition truthy_opt (o : option string) : bool :=
  match o with Some s => truthy_string s | None => false end.

(** [o || d] for a string-or-null [o]. *)
Definition or_string (o : option string) (d : string) : string :=
  match o with
  | Some s => if truthy_string s then s else d
  | None => d
  end.

(** The value of the code unit [c] as a digit of the given radix. *)
Definition digit_value (radix : Z) (c : ascii) : option Z :=
  let n := Z.of_N (N_of_ascii c) in
  let v :=
    if (48 <=? n) && (n <=? 57) then Some (n - 48)
    else if (97 <=? n) && (n <=? 122) then Some (n - 87)
    else if (65 <=? n) && (n <=? 90) then Some (n - 55)
    else None in
  match v with
  | Some d => if d <? radix then Some d else None
  | None => None
  end.

(** The longest prefix of radix digits, as a number; [acc] is [None] until
    a first digit has been read. *)
Fixpoint parse_digits (radix : Z) (s : string) (acc : option Z) : option Z :=
  match s with
  | EmptyString => acc
  | String c r =>
      match digit_value radix c with
      | Some d =>
          parse_digits radix r
            (Some (match acc with Some a => a * radix + d | None => d end))
      | None => acc
      end
  end.

(** [parseInt(s)] with no radix argument: leading white space is skipped,
    one sign is read, a [0x] or [0X] prefix selects radix 16, and the
    digits that follow are read up to the first other code unit.  [None]
    is [NaN]. *)
Definition parseInt (s : string) : option Z :=
  let s0 := trimStart s in
  let '(sign, s1) :=
    match s0 with
    | String "-"%char r => (-1, r)
    | String "+"%char r => (1, r)
    | _ => (1, s0)
    end in
  let '(radix, s2) :=
    match s1 with
    | String "0"%char (String "x"%char r) => (16, r)
    | String "0"%char (String "X"%char r) => (16, r)
    | _ => (10, s1)
    end in
  match parse_digits radix s2 None with
  | Some n => Some (sign * n)
  | None => None
  end.

(** [n || d] for a number [n]: [NaN] and zero are falsy. *)
Definition or_number (n : option Z) (d : Z) : Z :=
  match n with
  | Some v => if v =? 0 then d else v
  | None => d
  end.

(** The decimal numeral of an integer. *)
Definition decimal (n : Z) : string :=
  NilZero.string_of_int (Z.to_int n).

(** The double nearest to the positive integer [n], ties going to the even
    significand; [None] is [Infinity]. *)
Definition nearest_double (n : Z) : option Z :=
  let bits := Z.log2 n + 1 in
  if bits <=? 53 then Some n
  else
    let e := bits - 53 in
    let q := Z.shiftr n e in
    let r := n - Z.shiftl q e in
    let half := Z.shiftl 1 (e - 1) in
    let q' := if (half <? r) || ((half =? r) && Z.odd q) then q + 1 else q in
    let v := Z.shiftl q' e in
    if Z.shiftl 1 1024 <=? v then None else Some v.

(** The numeral [v] reads as the double [x]. *)
Definition reads_as (v x : Z) : bool :=
  match nearest_double v with
  | Some y => y =? x
  | None => false
  end.

(** The integer with the fewest significant digits that reads as the
    double [x], and of these the one nearest to [x]: the multiples of
    [10 ^ p] on either side of [x] are tried from [p] down to 1, and [x]
    itself is left at [p = 0]. *)
Fixpoint shortest (p : nat) (x : Z) : Z :=
  match p with
  | O => x
  | S p' =>
      let m := 10 ^ Z.of_nat p in
      let lo := x / m * m in
      let hi := lo + m in
      match reads_as lo x, reads_as hi x with
      | true, true =>
          if x - lo <? hi - x then lo
          else if hi - x <? x - lo then hi
          else if Z.even (lo / m) then lo else hi
      | true, false => lo
      | false, true => hi
      | false, false => shortest p' x
      end
  end.

(** [s] without the zeros at its end. *)
Fixpoint strip_zeros (s : string) : string :=
  match s with
  | EmptyString => EmptyString
  | String c r =>
      match strip_zeros r with
      | EmptyString => if (c =? "0")%char then EmptyString else String c EmptyString
      | r' => String c r'
      end
  end.

(** [Number::toString] of a positive double that holds the integer [x]:
    its shortest digits [v] as they are below 10^21, and otherwise the
    significant ones, with a point after the first, and the exponent. *)
Definition double_toString (x : Z) : string :=
  let v := shortest (Nat.pred (String.length (decimal x))) x in
  let digits := decimal v in
  if v <? 10 ^ 21 then digits
  else
    let exponent := "e+" ++ decimal (Z.of_nat (String.length digits) - 1) in
    match strip_zeros digits with
    | EmptyString => digits
    | String d EmptyString => String d exponent
    | String d rest => String d ("." ++ rest ++ exponent)
    end.

(** [n.toString()] of the number that holds the integer [n]: the text of
    the double nearest to [n]. *)
Definition number_toString (n : Z) : string :=
  if n =? 0 then "0"
  else
    (if n <? 0 then "-" else "") ++
    match nearest_double (Z.abs n) with
    | Some x => double_toString x
    | None => "Infinity"
    end.

(** A value produced by [JSON.parse].  A number is held as its
    [Number::toString] rendering, which identifies it (both zeros render
    as ["0"]). *)
Inductive JSON : Type :=
| JNull
| JBool (b : bool)
| JNum (text : string)
| JStr (s : string)
| JArr (items : list JSON)
| JObj (members : list (string * JSON)).

(** Truthiness of a parsed value. *)
Definition truthy (j : JSON) : bool :=
  match j with
  | JNull => false
  | JBool b => b
  | JNum t => negb (t =? "0")%string
  | JStr s => truthy_string s
  | JArr _ => true
  | JObj _ => true
  end.

(** The own property [key] of an object built by [JSON.parse]: of several
    members with one name the last one stays. *)
Fixpoint member (key : string) (members : list (string * JSON)) : option JSON :=
  match members with
  | [] => None
  | (k, v) :: r =>
      match member key r with
      | Some v' => Some v'
      | None => if (k =? key)%string then Some v else None
      end
  end.

(** The message of the [TypeError] thrown when an object has no primitive
    value. *)
Definition no_primitive_message : string :=
  "Cannot convert object to primitive value".

(** [ToString] of a parsed value; [None] when the conversion throws a
    [TypeError].  An array joins the conversions of its items with commas,
    a [null] item giving the empty string.  An object is converted by
    [Object.prototype.toString] to [[object Object]], unless it has a
    member named [toString] of its own: that member hides the method and
    is not callable, [valueOf] gives no primitive, and the conversion
    throws. *)
Fixpoint toString (j : JSON) : option string :=
  match j with
  | JNull => Some "null"
  | JBool true => Some "true"
  | JBool false => Some "false"
  | JNum t => Some t
  | JStr s => Some s
  | JArr items =>
      (fix join (l : list JSON) : option string :=
         match l with
         | [] => Some ""
         | x :: r =>
             match match x with JNull => Some "" | _ => toString x end with
             | Some s =>
                 match r with
                 | [] => Some s
                 | _ =>
                     match join r with
                     | Some t => Some (s ++ "," ++ t)
                     | None => None
                     end
                 end
             | None => None
             end
         end) items
  | JObj members =>
      match member "toString" members with
      | Some _ => None
      | None => Some "[object Object]"
      end
  end.

End JS.

(* ------------------------------------------------------------------ *)
(** ** The collaborators of the pages *)

Module Auth.

(** The identity handed out by [useAuth].  [ref] is the identity of the
    object, which is what the dependency comparison of an effect sees. *)
Record User := {
  ref : nat;
  uid : option string;
  displayName : option string;
  email : option string
}.

(** [{ user, loading }] as returned by [useAuth]. *)
Record Session := {
  user : option User;
  loading : bool
}.

(** [Object.is] on two values of [user]. *)
Definition same_user (u v : option User) : bool :=
  match u, v with
  | None, None => true
  | Some x, Some y => Nat.eqb (ref x) (ref y)
  | _, _ => false
  end.

(** The dependencies [[user, loading, router]] of the gate effects are
    unchanged; the router object is the same at every render. *)
Definition same_deps (s t : Session) : bool :=
  same_user (user s) (user t) && Bool.eqb (loading s) (loading t).

End Auth.

(* ------------------------------------------------------------------ *)
(** ** [PlantPageContent] *)

Module Plant.
Import JS Auth.
#[local] Open Scope list_scope.

Record File := {
  file_name : string;
  file_type : string;
  file_size : Z
}.

Record DistrictSearchResult := {
  id : string;
  name : string;
  state : string
}.

(** The result of [validateImageFile]. *)
Record Validation := {
  valid : bool;
  validation_error : option string
}.

(** Modelled from the spec: the preview collaborators
    [createImagePreview] and [revokeImagePreview] of
    [@/lib/utils/storage] are not part of the sources at hand.  A preview
    handle is a revocable reference created from a file; handles are
    numbered in the order of their creation, and every handle is a
    truthy value. *)
Definition Handle := nat.

(** The state variables of the component. *)
Record PageState := {
  image : option File;
  previewUrl : option Handle;
  isDragging : bool;
  treeQuantity : Z;
  treeName : string;
  selectedDistrict : option DistrictSearchResult;
  error : option string;
  success : option string;
  submitting : bool
}.

(** The arguments of [useState]. *)
Definition initial_state : PageState := {|
  image := None;
  previewUrl := None;
  isDragging := false;
  treeQuantity := 1;
  treeName := "";
  selectedDistrict := None;
  error := None;
  success := None;
  submitting := false
|}.

Definition with_image (v : option File) (p : PageState) : PageState :=
  {| image := v; previewUrl := previewUrl p; isDragging := isDragging p;
     treeQuantity := treeQuantity p; treeName := treeName p;
     selectedDistrict := selectedDistrict p; error := error p;
     success := success p; submitting := submitting p |}.

Definition with_previewUrl (v : option Handle) (p : PageState) : PageState :=
  {| image := image p; previewUrl := v; isDragging := isDragging p;
     treeQuantity := treeQuantity p; treeName := treeName p;
     selectedDistrict := selectedDistrict p; error := error p;
     success := success p; submitting := submitting p |}.

Definition with_isDragging (v : bool) (p : PageState) : PageState :=
  {| image := image p; previewUrl := previewUrl p; isDragging := v;
     treeQuantity := treeQuantity p; treeName := treeName p;
     selectedDistrict := selectedDistrict p; error := error p;
     success := success p; submitting := submitting p |}.

Definition with_treeQuantity (v : Z) (p : PageState) : PageState :=
  {| image := image p; previewUrl := previewUrl p; isDragging := isDragging p;
     treeQuantity := v; treeName := treeName p;
     selectedDistrict := selectedDistrict p; error := error p;
     success := success p; submitting := submitting p |}.

Definition with_treeName (v : string) (p : PageState) : PageState :=
  {| image := image p; previewUrl := previewUrl p; isDragging := isDragging p;
     treeQuantity := treeQuantity p; treeName := v;
     selectedDistrict := selectedDistrict p; error := error p;
     success := success p; submitting := submitting p |}.

Definition with_selectedDistrict (v : option DistrictSearchResult)
    (p : PageState) : PageState :=
  {| image := image p; previewUrl := previewUrl p; isDragging := isDragging p;
     treeQuantity := treeQuantity p; treeName := treeName p;
     selectedDistrict := v; error := error p;
     success := success p; submitting := submitting p |}.

Definition with_error (v : option string) (p : PageState) : PageState :=
  {| image := image p; previewUrl := previewUrl p; isDragging := isDragging p;
     treeQuantity := treeQuantity p; treeName := treeName p;
     selectedDistrict := selectedDistrict p; error := v;
     success := success p; submitting := submitting p |}.

Definition with_success (v : option string) (p : PageState) : PageState :=
  {| image := image p; previewUrl := previewUrl p; isDragging := isDragging p;
     treeQuantity := treeQuantity p; treeName := treeName p;
     selectedDistrict := selectedDistrict p; error := error p;
     success := v; submitting := submitting p |}.

Definition with_submitting (v : bool) (p : PageState) : PageState :=
  {| image := image p; previewUrl := previewUrl p; isDragging := isDragging p;
     treeQuantity := treeQuantity p; treeName := treeName p;
     selectedDistrict := selectedDistrict p; error := error p;
     success := success p; submitting := v |}.

(** A field of the multipart payload. *)
Inductive FormValue : Type :=
| Text (s : string)
| Blob (f : File).

Definition FormData := list (string * FormValue).

(** [formData.append(name, value)] *)
Definition append (name : string) (value : FormValue) (fd : FormData) : FormData :=
  fd ++ [(name, value)].

(** Everything a handler does, in the order in which it does it: the
    state setters it calls and the calls it makes to its collaborators.
    The callback handed to [setTimeout] is [router.push(path)]. *)
Inductive Op : Type :=
| PreventDefault
| SetImage (v : option File)
| SetPreviewUrl (v : option Handle)
| SetIsDragging (v : bool)
| SetTreeQuantity (v : Z)
| SetTreeName (v : string)
| SetSelectedDistrict (v : option DistrictSearchResult)
| SetError (v : option string)
| SetSuccess (v : option string)
| SetSubmitting (v : bool)
| CreateImagePreview (f : File) (h : Handle)
| RevokeImagePreview (h : Handle)
| Fetch (url method : string) (body : FormData)
| SetTimeout (path : string) (ms : Z)
| RouterPush (path : string).

(** What a handler runs on: the state of the component with the updates
    queued so far, the log of operations, the number of the next preview
    handle, and the timers that have not fired yet (destination and
    delay in milliseconds). *)
Record Machine := {
  page : PageState;
  log : list Op;
  next_handle : Handle;
  timers : list (string * Z)
}.

(** A computation either yields a value or throws an error, of which
    only the [message] is ever read. *)
Inductive Outcome (A : Type) : Type :=
| Value (a : A)
| Thrown (message : string).
Arguments Value {A} a.
Arguments Thrown {A} message.

Definition M (A : Type) : Type := Machine -> Outcome A * Machine.

Definition ret {A} (a : A) : M A := fun m => (Value a, m).

Definition bind {A B} (c : M A) (k : A -> M B) : M B :=
  fun m =>
    match c m with
    | (Value a, m') => k a m'
    | (Thrown e, m') => (Thrown e, m')
    end.

Definition throw {A} (message : string) : M A := fun m => (Thrown message, m).

(** [try { body } catch (err) { handler(err.message) } finally { finalizer }] *)
Definition try_catch_finally (body : M unit) (handler : string -> M unit)
    (finalizer : M unit) : M unit :=
  fun m =>
    let '(r, m1) :=
      match body m with
      | (Value a, m') => (Value a, m')
      | (Thrown e, m') => handler e m'
      end in
    match finalizer m1 with
    | (Value _, m2) => (r, m2)
    | (Thrown e, m2) => (Thrown e, m2)
    end.

Declare Scope js_scope.
Delimit Scope js_scope with js.
Notation "x <- c ;; k" := (bind c (fun x => k))
  (at level 61, c at next level, right associativity) : js_scope.
Notation "c ;; k" := (bind c (fun _ => k))
  (at level 61, right associativity) : js_scope.
Open Scope js_scope.

(** The machine after a computation. *)
Definition exec {A} (c : M A) (m : Machine) : Machine := snd (c m).

(** Record [op] and apply [f] to the queued state. *)
Definition perform (op : Op) (f : PageState -> PageState) : M unit :=
  fun m =>
    (Value tt,
     {| page := f (page m); log := log m ++ [op];
        next_handle := next_handle m; timers := timers m |}).

Definition preventDefault : M unit := perform PreventDefault (fun p => p).
Definition setImage v : M unit := perform (SetImage v) (with_image v).
Definition setPreviewUrl v : M unit := perform (SetPreviewUrl v) (with_previewUrl v).
Definition setIsDragging v : M unit := perform (SetIsDragging v) (with_isDragging v).
Definition setTreeQuantity v : M unit := perform (SetTreeQuantity v) (with_treeQuantity v).
Definition setTreeName v : M unit := perform (SetTreeName v) (with_treeName v).
Definition setSelectedDistrict v : M unit :=
  perform (SetSelectedDistrict v) (with_selectedDistrict v).
Definition setError v : M unit := perform (SetError v) (with_error v).
Definition setSuccess v : M unit := perform (SetSuccess v) (with_success v).
Definition setSubmitting v : M unit := perform (SetSubmitting v) (with_submitting v).

Definition revokeImagePreview (h : Handle) : M unit :=
  perform (RevokeImagePreview h) (fun p => p).

Definition createImagePreview (f : File) : M Handle :=
  fun m =>
    (Value (next_handle m),
     {| page := page m; log := log m ++ [CreateImagePreview f (next_handle m)];
        next_handle := S (next_handle m); timers := timers m |}).

Definition fetch (url method : string) (body : FormData) : M unit :=
  perform (Fetch url method body) (fun p => p).

Definition routerPush (path : string) : M unit :=
  perform (RouterPush path) (fun p => p).

(** [setTimeout(() => { router.push(path) }, ms)] *)
Definition setTimeout (path : string) (ms : Z) : M unit :=
  fun m =>
    (Value tt,
     {| page := page m; log := log m ++ [SetTimeout path ms];
        next_handle := next_handle m; timers := timers m ++ [(path, ms)] |}).

(** [if (previewUrl) revokeImagePreview(previewUrl)] *)
Definition revoke_if_present (previewUrl : option Handle) : M unit :=
  match previewUrl with
  | Some h => revokeImagePreview h
  | None => ret tt
  end.

(** The preview handles that are live after the operations [ops], when
    [live] were live before them. *)
Definition live_step (live : list Handle) (op : Op) : list Handle :=
  match op with
  | CreateImagePreview _ h => live ++ [h]
  | RevokeImagePreview h => filter (fun x => negb (Nat.eqb x h)) live
  | _ => live
  end.

Definition live_after (live : list Handle) (ops : list Op) : list Handle :=
  fold_left live_step ops live.

(** The live preview handles of a machine that started with none. *)
Definition live_handles (m : Machine) : list Handle := live_after [] (log m).

(** The requests issued by the operations [ops]. *)
Definition is_fetch (op : Op) : bool :=
  match op with Fetch _ _ _ => true | _ => false end.

Definition is_setTimeout (op : Op) : bool :=
  match op with SetTimeout _ _ => true | _ => false end.

(** How the network call of [handleSubmit] ends: [fetch] rejects, or a
    response arrives, whose body [res.json()] either parses or rejects. *)
Inductive Body : Type :=
| Parsed (json : JSON)
| Unparsable (message : string).

Inductive FetchOutcome : Type :=
| Rejected (message : string)
| Responded (status : Z) (body : Body).

(** [res.ok] *)
Definition ok (status : Z) : bool := (200 <=? status) && (status <=? 299).

(** The message of the [TypeError] thrown by reading a property of [null]. *)
Definition null_read_message : string :=
  "Cannot read properties of null (reading 'error')".

(** [json.error] *)
Definition json_error (json : JSON) : M (option JSON) :=
  match json with
  | JNull => throw null_read_message
  | JObj members => ret (member "error" members)
  | _ => ret None
  end.

(** [new Error(value || fallback)], by the message of the error made; the
    conversion of a truthy [value] to a string may throw instead. *)
Definition new_Error (value : option JSON) (fallback : string) : M string :=
  match value with
  | Some v =>
      if truthy v then
        match toString v with
        | Some s => ret s
        | None => throw no_primitive_message
        end
      else ret fallback
  | None => ret fallback
  end.

(** Whether [handleSubmit] stopped at its [await]. *)
Inductive Progress : Type :=
| Finished
| AwaitingFetch.

(** [user?.field] *)
Definition user_field (field : User -> option string) (user : option User)
  : option string :=
  match user with
  | Some u => field u
  | None => None
  end.

(** [if (value) formData.append(name, value)] *)
Definition append_if_present (name : string) (value : option string)
    (fd : FormData) : FormData :=
  match value with
  | Some s => if truthy_string s then append name (Text s) fd else fd
  | None => fd
  end.

(** The payload built by [handleSubmit]. *)
Definition build_formData (district : DistrictSearchResult) (img : File)
    (snap : PageState) (user : option User) : FormData :=
  let fd := [] in
  let fd := append "districtId" (Text (id district)) fd in
  let fd := append "districtName" (Text (name district)) fd in
  let fd := append "state" (Text (state district)) fd in
  let fd := append "treeName" (Text (trim (treeName snap))) fd in
  let fd := append "treeQuantity" (Text (number_toString (treeQuantity snap))) fd in
  let fd := append_if_present "userId" (user_field uid user) fd in
  let fd := append_if_present "userName" (user_field displayName user) fd in
  let fd := append_if_present "userEmail" (user_field email user) fd in
  append "image" (Blob img) fd.

Section Handlers.

(** [validateImageFile] of [@/lib/utils/storage] is not part of the
    sources at hand; the handlers are given for any such function. *)
Variable validateImageFile : File -> Validation.

(** The handlers read the state through [snap], the values of the render
    that created them. *)
Definition handleImageFile (snap : PageState) (file : File) : M unit :=
  let validation := validateImageFile file in
  if negb (valid validation) then
    setError (Some (or_string (validation_error validation) "Invalid image file"))
  else
    revoke_if_present (previewUrl snap) ;;
    setImage (Some file) ;;
    h <- createImagePreview file ;;
    setPreviewUrl (Some h) ;;
    setError None ;;
    setSuccess None.

(** [files] is [event.target.files], empty when that is [null]. *)
Definition handleImageChange (snap : PageState) (files : list File) : M unit :=
  match files with
  | file :: _ => handleImageFile snap file
  | [] => ret tt
  end.

Definition handleDragOver : M unit :=
  preventDefault ;;
  setIsDragging true.

Definition handleDragLeave : M unit :=
  preventDefault ;;
  setIsDragging false.

Definition handleDrop (snap : PageState) (files : list File) : M unit :=
  preventDefault ;;
  setIsDragging false ;;
  match files with
  | file :: _ => handleImageFile snap file
  | [] => ret tt
  end.

(** [handleSubmit] up to its first [await]: the validation pass and the
    issue of the request. *)
Definition handleSubmit (snap : PageState) (user : option User) : M Progress :=
  preventDefault ;;
  setError None ;;
  setSuccess None ;;
  match selectedDistrict snap with
  | None =>
      setError (Some "Please select a district") ;;
      ret Finished
  | Some district =>
      match image snap with
      | None =>
          setError (Some "Please upload a tree photo") ;;
          ret Finished
      | Some img =>
          if negb (truthy_string (trim (treeName snap))) then
            setError (Some "Please enter the tree name") ;;
            ret Finished
          else if treeQuantity snap <? 1 then
            setError (Some "Please enter a valid number of trees") ;;
            ret Finished
          else
            setSubmitting true ;;
            fetch "/api/plant" "POST" (build_formData district img snap user) ;;
            ret AwaitingFetch
      end
  end.

(** The value of [await fetch(...)]: the status and the body of the
    response, or the rejection thrown. *)
Definition await_fetch (o : FetchOutcome) : M (Z * Body) :=
  match o with
  | Rejected message => throw message
  | Responded status body => ret (status, body)
  end.

(** The value of [await res.json()] *)
Definition await_json (body : Body) : M JSON :=
  match body with
  | Parsed json => ret json
  | Unparsable message => throw message
  end.

(** [handleSubmit] from its first [await] on, once the network call has
    settled as [o].  [snap] is still the render in which the submission
    started. *)
Definition handleSubmit_resume (snap : PageState) (o : FetchOutcome) : M unit :=
  try_catch_finally
    (res <- await_fetch o ;;
     json <- await_json (snd res) ;;
     (if negb (ok (fst res)) then
        e <- json_error json ;;
        message <- new_Error e "Failed to submit contribution" ;;
        throw message
      else ret tt) ;;
     setSuccess (Some "Tree contribution submitted successfully!") ;;
     setImage None ;;
     revoke_if_present (previewUrl snap) ;;
     setPreviewUrl None ;;
     setTreeName "" ;;
     setTreeQuantity 1 ;;
     setSelectedDistrict None ;;
     setTimeout "/contribution" 2000)
    (fun message =>
       setError (Some (or_string (Some message) "Failed to submit contribution")))
    (setSubmitting false).

(** [onDistrictSelect] *)
Definition handleDistrictSelect (district : DistrictSearchResult) : M unit :=
  setSelectedDistrict (Some district) ;;
  setError None.

(** [onChange] of the quantity input; [value] is [e.target.value]. *)
Definition handleQuantityChange (value : string) : M unit :=
  setTreeQuantity (Z.max 1 (or_number (parseInt value) 1)).

(** [onChange] of the tree-name input. *)
Definition handleTreeNameChange (value : string) : M unit :=
  setTreeName value.

(** The effect that redirects a visitor who is not signed in. *)
Definition redirectEffect (s : Session) : M unit :=
  if negb (loading s) && negb (match user s with Some _ => true | None => false end)
  then routerPush "/?auth_required=true"
  else ret tt.

(** The clean-up returned by the effect that depends on [previewUrl]. *)
Definition previewCleanup (snap : PageState) : M unit :=
  revoke_if_present (previewUrl snap).

(** What the component returns. *)
Record FormView := {
  district_caption : option (string * string);
  quantity_value : Z;
  name_value : string;
  drop_zone_active : bool;
  preview_src : option Handle;
  error_banner : option string;
  success_banner : option string;
  submit_disabled : bool;
  submit_label : string
}.

Inductive Rendered : Type :=
| Spinner
| Nothing
| Form (view : FormView).

(** [{text && <div>{text}</div>}] *)
Definition banner (text : option string) : option string :=
  match text with
  | Some s => if truthy_string s then Some s else None
  | None => None
  end.

Definition form_view (p : PageState) : FormView := {|
  district_caption :=
    match selectedDistrict p with
    | Some d => Some (name d, state d)
    | None => None
    end;
  quantity_value := treeQuantity p;
  name_value := treeName p;
  drop_zone_active := isDragging p;
  preview_src := previewUrl p;
  error_banner := banner (error p);
  success_banner := banner (success p);
  submit_disabled := submitting p;
  submit_label := if submitting p then "Submitting..." else "Submit"
|}.

Definition render (s : Session) (p : PageState) : Rendered :=
  if loading s then Spinner
  else match user s with
       | None => Nothing
       | Some _ => Form (form_view p)
       end.

(** The mounted (or torn down) component in its surroundings:
    [inflight] holds, for every request that has not settled, the
    snapshot of the [handleSubmit] call that waits for it. *)
Record App := {
  mounted : bool;
  session : Session;
  machine : Machine;
  inflight : list PageState
}.

Definition current (a : App) : PageState := page (machine a).

Definition with_machine (m : Machine) (a : App) : App :=
  {| mounted := mounted a; session := session a; machine := m;
     inflight := inflight a |}.

Definition with_page (p : PageState) (m : Machine) : Machine :=
  {| page := p; log := log m; next_handle := next_handle m; timers := timers m |}.

Definition same_handle (x y : option Handle) : bool :=
  match x, y with
  | None, None => true
  | Some h, Some k => Nat.eqb h k
  | _, _ => false
  end.

(** The commit that follows a handler: the updates it queued become the
    state, and when [previewUrl] is no longer the one of the previous
    commit ([before]) the clean-up of that commit runs. *)
Definition commit (before : PageState) (m : Machine) : Machine :=
  if same_handle (previewUrl before) (previewUrl (page m)) then m
  else exec (previewCleanup before) m.

(** Run a handler created by the current render, then commit. *)
Definition dispatch {A} (handler : PageState -> M A) (a : App) : App :=
  let before := current a in
  with_machine (commit before (exec (handler before) (machine a))) a.

(** What happens to the component: the authentication collaborator
    hands out another session; the visitor uses a control of the form
    (which needs the form to be on the screen); the visitor asks for
    submission, by the submit control or by the keyboard, which the
    browser turns into a submit event of the form only while the submit
    control is not disabled; the [i]-th request in flight settles; the
    oldest timer fires; the component is torn down. *)
Inductive Event : Type :=
| AuthChange (s : Session)
| DistrictSelect (district : DistrictSearchResult)
| QuantityChange (value : string)
| TreeNameChange (value : string)
| ImageChange (files : list File)
| DragOver
| DragLeave
| Drop (files : list File)
| Submit
| FetchSettled (i : nat) (o : FetchOutcome)
| TimerFired
| Unmount.

(** The form is on the screen. *)
Definition interactive (a : App) : bool :=
  mounted a &&
  match render (session a) (current a) with
  | Form _ => true
  | _ => false
  end.

(** The submit control is on the screen and not disabled. *)
Definition can_submit (a : App) : bool :=
  mounted a &&
  match render (session a) (current a) with
  | Form view => negb (submit_disabled view)
  | _ => false
  end.

Fixpoint remove_nth {A} (i : nat) (l : list A) : list A :=
  match l, i with
  | [], _ => []
  | _ :: r, O => r
  | x :: r, S j => x :: remove_nth j r
  end.

(** The component right after its first render under the session [s]:
    the effects of the mount have run. *)
Definition mount (s : Session) : App := {|
  mounted := true;
  session := s;
  machine :=
    exec (redirectEffect s)
      {| page := initial_state; log := []; next_handle := O; timers := [] |};
  inflight := []
|}.

Definition step (a : App) (e : Event) : App :=
  match e with
  | AuthChange s =>
      if mounted a then
        let m := if same_deps (session a) s then machine a
                 else exec (redirectEffect s) (machine a) in
        {| mounted := true; session := s; machine := m; inflight := inflight a |}
      else a
  | DistrictSelect district =>
      if interactive a then dispatch (fun _ => handleDistrictSelect district) a
      else a
  | QuantityChange value =>
      if interactive a then dispatch (fun _ => handleQuantityChange value) a
      else a
  | TreeNameChange value =>
      if interactive a then dispatch (fun _ => handleTreeNameChange value) a
      else a
  | ImageChange files =>
      if interactive a then dispatch (fun snap => handleImageChange snap files) a
      else a
  | DragOver =>
      if interactive a then dispatch (fun _ => handleDragOver) a else a
  | DragLeave =>
      if interactive a then dispatch (fun _ => handleDragLeave) a else a
  | Drop files =>
      if interactive a then dispatch (fun snap => handleDrop snap files) a
      else a
  | Submit =>
      if can_submit a then
        let snap := current a in
        let a' := dispatch (fun snap => handleSubmit snap (user (session a))) a in
        match fst (handleSubmit snap (user (session a)) (machine a)) with
        | Value AwaitingFetch =>
            {| mounted := mounted a'; session := session a';
               machine := machine a'; inflight := inflight a ++ [snap] |}
        | _ => a'
        end
      else a
  | FetchSettled i o =>
      match nth_error (inflight a) i with
      | Some snap =>
          let before := current a in
          let m := exec (handleSubmit_resume snap o) (machine a) in
          {| mounted := mounted a; session := session a;
             machine := if mounted a then commit before m else with_page before m;
             inflight := remove_nth i (inflight a) |}
      | None => a
      end
  | TimerFired =>
      match timers (machine a) with
      | (path, _) :: rest =>
          let m := machine a in
          with_machine
            (exec (routerPush path)
               {| page := page m; log := log m; next_handle := next_handle m;
                  timers := rest |}) a
      | [] => a
      end
  | Unmount =>
      if mounted a then
        {| mounted := false; session := session a;
           machine := exec (previewCleanup (current a)) (machine a);
           inflight := inflight a |}
      else a
  end.

(** The component after the events [es], in order. *)
Definition run (a : App) (es : list Event) : App := fold_left step es a.

End Handlers.

End Plant.

(* ------------------------------------------------------------------ *)
(** ** [HomeContent], the landing page *)

Module Home.
Import Auth.
#[local] Open Scope list_scope.

(** The calls of the effects of the landing page, in order. *)
Inductive Op : Type :=
| RouterPush (path : string)
| SetShowAuthModal (v : bool)
| FetchStats.

(** The landing page: the session it renders under, its [showAuthModal]
    state and the log of what its effects and handlers did.  The
    statistics it shows take no part in the gate: the request for them
    is recorded, their display is left out. *)
Record App := {
  session : Session;
  showAuthModal : bool;
  log : list Op
}.

Inductive Rendered : Type :=
| Spinner
| Nothing
| Landing (modal_open : bool).

Definition render (a : App) : Rendered :=
  if loading (session a) then Spinner
  else match user (session a) with
       | Some _ => Nothing
       | None => Landing (showAuthModal a)
       end.

(** The effect that sends a signed-in visitor to the dashboard. *)
Definition redirectEffect (s : Session) : list Op :=
  if negb (loading s) && (match user s with Some _ => true | None => false end)
  then [RouterPush "/dashboard"]
  else [].

(** The effect that opens the modal; [param] is
    [searchParams?.get('auth_required')]. *)
Definition authModalEffect (param : option string) : list Op :=
  match param with
  | Some v => if (v =? "true")%string then [SetShowAuthModal true] else []
  | None => []
  end.

Definition apply_op (shown : bool) (op : Op) : bool :=
  match op with
  | SetShowAuthModal v => v
  | _ => shown
  end.

(** The page right after its first render: the three effects have run. *)
Definition mount (s : Session) (param : option string) : App :=
  let ops := redirectEffect s ++ authModalEffect param ++ [FetchStats] in
  {| session := s; showAuthModal := fold_left apply_op ops false; log := ops |}.

Inductive Event : Type :=
| AuthChange (s : Session)
| OpenModal
| CloseModal.

Definition step (a : App) (e : Event) : App :=
  match e with
  | AuthChange s =>
      {| session := s; showAuthModal := showAuthModal a;
         log := if same_deps (session a) s then log a
                else log a ++ redirectEffect s |}
  | OpenModal =>
      match render a with
      | Landing _ =>
          {| session := session a; showAuthModal := true;
             log := log a ++ [SetShowAuthModal true] |}
      | _ => a
      end
  | CloseModal =>
      match render a with
      | Landing true =>
          {| session := session a; showAuthModal := false;
             log := log a ++ [SetShowAuthModal false] |}
      | _ => a
      end
  end.

Definition run (a : App) (es : list Event) : App := fold_left step es a.

(** The navigations among the operations [ops]. *)
Fixpoint pushes (ops : list Op) : list string :=
  match ops with
  | [] => []
  | RouterPush path :: r => path :: pushes r
  | _ :: r => pushes r
  end.

End Home.

(* ------------------------------------------------------------------ *)
(** ** The validation pass as the specification words it, and examples *)

Import JS Auth Plant.
#[local] Open Scope list_scope.

(** The four checks of the validation pass in their stated order:
    selection present, attachment present, text not blank, quantity at
    least 1.  The result is the message of the first check that fails. *)
Definition validation_failure (draft : PageState) : option string :=
  match selectedDistrict draft with
  | None => Some "Please select a district"
  | Some _ =>
      match image draft with
      | None => Some "Please upload a tree photo"
      | Some _ =>
          if blank (treeName draft) then Some "Please enter the tree name"
          else if treeQuantity draft <? 1
               then Some "Please enter a valid number of trees"
               else None
      end
  end.

(** The preview handle a draft holds, as a list. *)
Definition preview_slot (p : PageState) : list Handle :=
  match previewUrl p with
  | Some h => [h]
  | None => []
  end.

(** At most one handle is live before [ops] and after each of them. *)
Fixpoint steady (live : list Handle) (ops : list Op) : bool :=
  (length live <=? 1)%nat &&
  match ops with
  | [] => true
  | op :: rest => steady (live_step live op) rest
  end.

(** The operations of [if (previewUrl) revokeImagePreview(previewUrl)]. *)
Definition revokes (previewUrl : option Handle) : list Op :=
  match previewUrl with
  | Some h => [RevokeImagePreview h]
  | None => []
  end.

(** The message of what [throw new Error(value || fallback)] throws: the
    error made, or the [TypeError] of the conversion of [value]. *)
Definition error_message (value : option JSON) (fallback : string) : string :=
  match value with
  | Some v =>
      if truthy v then
        match toString v with
        | Some s => s
        | None => no_primitive_message
        end
      else fallback
  | None => fallback
  end.

(** The message of the error that the [try] block of [handleSubmit]
    throws when the network call settles as [o]; [None] when the block
    runs to its end. *)
Definition thrown_message (o : FetchOutcome) : option string :=
  match o with
  | Rejected message => Some message
  | Responded _ (Unparsable message) => Some message
  | Responded status (Parsed json) =>
      if ok status then None
      else match json with
           | JNull => Some null_read_message
           | JObj members =>
               Some (error_message (member "error" members)
                       "Failed to submit contribution")
           | _ => Some "Failed to submit contribution"
           end
  end.

(** The state after the [try] block has run to its end. *)
Definition cleared (p : PageState) : PageState :=
  {| image := None; previewUrl := None; isDragging := isDragging p;
     treeQuantity := 1; treeName := ""; selectedDistrict := None;
     error := error p;
     success := Some "Tree contribution submitted successfully!";
     submitting := false |}.

(** The live preview handles are those of the preview slot of the
    mounted component (none once it is torn down), at most one handle was
    live at every instant so far, and the slot holds a handle that has
    been handed out. *)
Definition Live_inv (a : App) : Prop :=
  live_handles (machine a) = (if mounted a then preview_slot (current a) else [])
  /\ (forall k, (length (live_after [] (firstn k (log (machine a)))) <= 1)%nat)
  /\ (forall h, previewUrl (current a) = Some h -> (h < next_handle (machine a))%nat).

(** At most one request is in flight, and the mounted component is
    [submitting] exactly while one is. *)
Definition Flight_inv (a : App) : Prop :=
  (length (inflight a) <= 1)%nat /\
  (mounted a = true ->
   submitting (current a) = match inflight a with [] => false | _ => true end).

(** What holds of the component after any sequence of events. *)
Definition Inv (a : App) : Prop :=
  Live_inv a /\ Flight_inv a /\ 1 <= treeQuantity (current a).

(** A visitor who is not signed in has been sent to the landing page and
    nothing else has happened to the component. *)
Definition Turned_away (a : App) : Prop :=
  user (session a) = None /\
  loading (session a) = false /\
  machine a =
    {| page := initial_state; log := [RouterPush "/?auth_required=true"];
       next_handle := O; timers := [] |} /\
  inflight a = [].

(** A signed-in visitor of the landing page has been sent to the
    dashboard, once. *)
Definition Sent_home (member : Session) (b : Home.App) : Prop :=
  same_deps member (Home.session b) = true /\
  Home.pushes (Home.log b) = ["/dashboard"].

(** An event that leaves the dependencies of the gate effect as they are
    under the session [s]. *)
Definition keeps_session (s : Session) (e : Event) : bool :=
  match e with
  | AuthChange t => same_deps s t
  | _ => true
  end.

Definition home_keeps_session (s : Session) (e : Home.Event) : bool :=
  match e with
  | Home.AuthChange t => same_deps s t
  | _ => true
  end.

(** A validator after the caption of the drop zone, "PNG, JPG, WEBP up
    to 10MB", to run the handlers on examples. *)
Definition caption_policy (f : File) : Validation :=
  if negb ((file_type f =? "image/jpeg")%string ||
           (file_type f =? "image/png")%string ||
           (file_type f =? "image/webp")%string)
  then {| valid := false; validation_error := Some "Unsupported image type" |}
  else if 10 * 1024 * 1024 <? file_size f
       then {| valid := false; validation_error := Some "Image is too large" |}
       else {| valid := true; validation_error := None |}.

Definition neem_photo : File :=
  {| file_name := "neem.jpg"; file_type := "image/jpeg"; file_size := 204800 |}.

Definition peepal_photo : File :=
  {| file_name := "peepal.png"; file_type := "image/png"; file_size := 512000 |}.

Definition pune : DistrictSearchResult :=
  {| id := "mh-pune"; name := "Pune"; state := "Maharashtra" |}.

Definition asha : User :=
  {| ref := 1%nat; uid := Some "u-17"; displayName := Some "Asha";
     email := Some "asha@example.org" |}.

Definition signed_in : Session := {| user := Some asha; loading := false |}.
Definition signed_out : Session := {| user := None; loading := false |}.

(** A visitor fills in the form. *)
Definition fill_in : list Event :=
  [DistrictSelect pune; ImageChange [neem_photo]; TreeNameChange " Neem ";
   QuantityChange "3"].

(** The form is filled in and submitted; the request is in flight. *)
Definition submitted : App :=
  run caption_policy (mount signed_in) (fill_in ++ [Submit]).

(** The body of a response that is no JSON text, and the message of the
    [SyntaxError] with which [res.json()] rejects on it. *)
Definition html_body : Body := Unparsable "Unexpected token < in JSON at position 0".
Definition empty_body : Body := Unparsable "Unexpected end of JSON input".

(** The form is filled in, nothing is submitted yet. *)
Definition filled : App := run caption_policy (mount signed_in) fill_in.

(** District, tree name and quantity are given, the photo is missing. *)
Definition no_photo : App :=
  run caption_policy (mount signed_in)
    [DistrictSelect pune; TreeNameChange "Neem"; QuantityChange "2"].

(** The body [{"error":"district required"}]. *)
Definition district_required : Body :=
  Parsed (JObj [("error", JStr "district required")]).

(* ------------------------------------------------------------------ *)
(** ** Further notions for the rest of the pages *)

(** [formData.get(name)]: the first value appended under [name]. *)
Fixpoint formData_get (name : string) (fd : FormData) : option FormValue :=
  match fd with
  | [] => None
  | (k, v) :: rest => if (k =? name)%string then Some v else formData_get name rest
  end.

(** What is sent for an identity value: nothing unless it is a non-empty
    string. *)
Definition sent_if_present (value : option string) : option FormValue :=
  match value with
  | Some s => if truthy_string s then Some (Text s) else None
  | None => None
  end.

(** A payload as the endpoint expects it: a tree name that is not empty
    and carries no white space at either end, a quantity of at least 1
    as [toString] prints it, the photo, and the three district fields. *)
Definition well_formed (fd : FormData) : Prop :=
  (exists t, formData_get "treeName" fd = Some (Text t) /\ t <> "" /\ trim t = t) /\
  (exists n, formData_get "treeQuantity" fd = Some (Text (number_toString n)) /\
             1 <= n) /\
  (exists f, formData_get "image" fd = Some (Blob f)) /\
  (exists d, formData_get "districtId" fd = Some (Text (id d)) /\
             formData_get "districtName" fd = Some (Text (name d)) /\
             formData_get "state" fd = Some (Text (state d))).

(** The calls to the outside that the page is written to make: requests
    to [/api/plant], navigations to the landing page or to the
    contributions, timers of 2000 ms for the latter. *)
Definition op_expected (op : Op) : Prop :=
  match op with
  | Fetch url method body =>
      url = "/api/plant" /\ method = "POST" /\ well_formed body
  | RouterPush path => path = "/?auth_required=true" \/ path = "/contribution"
  | SetTimeout path ms => path = "/contribution" /\ ms = 2000
  | _ => True
  end.

(** How many of the operations satisfy [p]. *)
Definition count (p : Op -> bool) (ops : list Op) : nat := length (filter p ops).

Definition is_push_to (path : string) (op : Op) : bool :=
  match op with
  | RouterPush p => (p =? path)%string
  | _ => false
  end.

(** [setSubmitting(false)], which only the [finally] block calls. *)
Definition is_flag_reset (op : Op) : bool :=
  match op with
  | SetSubmitting false => true
  | _ => false
  end.

(** A photo is stored exactly when a preview handle is. *)
Definition paired (p : PageState) : Prop :=
  match image p, previewUrl p with
  | Some _, Some _ => True
  | None, None => True
  | _, _ => False
  end.

(** The books of the component balance: photo and preview go together;
    every timer leads to the contributions; every call to the outside is
    an expected one; every timer set is pending or has fired; every
    request issued is in flight or has been settled. *)
Definition Account_inv (a : App) : Prop :=
  paired (current a) /\
  Forall (fun t => t = ("/contribution", 2000)) (timers (machine a)) /\
  Forall op_expected (log (machine a)) /\
  (count (is_push_to "/contribution") (log (machine a)) +
   length (timers (machine a)) = count is_setTimeout (log (machine a)))%nat /\
  (count is_fetch (log (machine a)) =
   length (inflight a) + count is_flag_reset (log (machine a)))%nat.

(** The events that need the form on the screen. *)
Definition is_form_event (e : Event) : bool :=
  match e with
  | AuthChange _ | FetchSettled _ _ | TimerFired | Unmount => false
  | _ => true
  end.

(** The statistics of the landing page: the effect that fetches them,
    from its [await] on.  [stats] is the state variable, which
    [setStats] overwrites with whatever the body parses to. *)
Module Stats.

Inductive Op : Type :=
| SetStats (data : JSON)
| ConsoleError (label message : string).

Record State := {
  stats : JSON;
  log : list Op
}.

(** The argument of [useState]. *)
Definition initial_stats : JSON :=
  JObj [("totalDistricts", JNum "0"); ("totalTrees", JNum "0");
        ("totalOxygen", JNum "0")].

Definition M (A : Type) : Type := State -> Outcome A * State.

Definition ret {A} (a : A) : M A := fun st => (Value a, st).

Definition bind {A B} (c : M A) (k : A -> M B) : M B :=
  fun st =>
    match c st with
    | (Value a, st') => k a st'
    | (Thrown e, st') => (Thrown e, st')
    end.

Definition throw {A} (message : string) : M A := fun st => (Thrown message, st).

(** [try { body } catch (error) { handler(error) }] *)
Definition try_catch (body : M unit) (handler : string -> M unit) : M unit :=
  fun st =>
    match body st with
    | (Value a, st') => (Value a, st')
    | (Thrown e, st') => handler e st'
    end.

Definition setStats (data : JSON) : M unit :=
  fun st => (Value tt, {| stats := data; log := log st ++ [SetStats data] |}).

Definition consoleError (label message : string) : M unit :=
  fun st => (Value tt, {| stats := stats st; log := log st ++ [ConsoleError label message] |}).

Definition await_fetch (o : FetchOutcome) : M (Z * Body) :=
  match o with
  | Rejected message => throw message
  | Responded status body => ret (status, body)
  end.

Definition await_json (body : Body) : M JSON :=
  match body with
  | Parsed json => ret json
  | Unparsable message => throw message
  end.

(** [fetchStats] once [fetch('/api/stats')] has settled as [o]. *)
Definition fetchStats_resume (o : FetchOutcome) : M unit :=
  try_catch
    (bind (await_fetch o) (fun response =>
       if ok (fst response) then
         bind (await_json (snd response)) (fun data => setStats data)
       else ret tt))
    (fun message => consoleError "Error fetching stats:" message).

End Stats.

(** A file the caption does not allow, and a session that is resolving. *)
Definition leaflet : File :=
  {| file_name := "leaflet.pdf"; file_type := "application/pdf"; file_size := 1024 |}.

Definition resolving : Session := {| user := None; loading := true |}.

(* ------------------------------------------------------------------ *)
(** ** Properties *)

(** *** Trimming *)

Lemma trimStart_blank (s : string) : blank s = true -> trimStart s = "".
Proof.
  induction s as [|c r IH]; simpl; [reflexivity|].
  destruct (is_whitespace c); simpl; [exact IH | discriminate].
Qed.

Lemma trimStart_not_blank (s : string) :
  blank s = false ->
  exists c r, trimStart s = String c r /\ is_whitespace c = false.
Proof.
  induction s as [|c r IH]; simpl; [discriminate|].
  destruct (is_whitespace c) eqn:W; simpl; intros H.
  - exact (IH H).
  - exists c, r. split; [reflexivity | exact W].
Qed.

Lemma trimEnd_keeps_head (c : ascii) (r : string) :
  is_whitespace c = false -> truthy_string (trimEnd (String c r)) = true.
Proof.
  intros W. simpl. destruct (trimEnd r); [rewrite W|]; reflexivity.
Qed.

(** A string trims to the empty string exactly when it is blank. *)
Lemma trim_truthy (s : string) : truthy_string (trim s) = negb (blank s).
Proof.
  unfold trim. destruct (blank s) eqn:B.
  - rewrite (trimStart_blank s B). reflexivity.
  - destruct (trimStart_not_blank s B) as (c & r & E & W).
    rewrite E. exact (trimEnd_keeps_head c r W).
Qed.

(** *** Logs and live handles *)

Lemma live_after_app (live : list Handle) (xs ys : list Op) :
  live_after live (xs ++ ys) = live_after (live_after live xs) ys.
Proof. unfold live_after. apply fold_left_app. Qed.

Lemma steady_start (live : list Handle) (ops : list Op) :
  steady live ops = true -> (length live <= 1)%nat.
Proof.
  destruct ops; simpl; intros H; apply andb_prop in H; destruct H as [H _];
    apply Nat.leb_le; exact H.
Qed.

(** A steady run has at most one live handle after each of its prefixes. *)
Lemma steady_firstn (ops : list Op) :
  forall (live : list Handle) (k : nat),
    steady live ops = true ->
    (length (live_after live (firstn k ops)) <= 1)%nat.
Proof.
  induction ops as [|op rest IH]; intros live k H.
  - rewrite firstn_nil. simpl. exact (steady_start live [] H).
  - destruct k as [|k]; simpl.
    + exact (steady_start live _ H).
    + simpl in H. apply andb_prop in H. destruct H as [_ H].
      exact (IH (live_step live op) k H).
Qed.

(** A log with at most one live handle at every instant stays so when
    a steady run is added to it. *)
Lemma calm_app (xs ys : list Op) :
  (forall k, (length (live_after [] (firstn k xs)) <= 1)%nat) ->
  steady (live_after [] xs) ys = true ->
  forall k, (length (live_after [] (firstn k (xs ++ ys))) <= 1)%nat.
Proof.
  intros Hx Hy k. rewrite firstn_app, live_after_app.
  destruct (Nat.le_gt_cases k (length xs)) as [L|L].
  - replace (k - length xs)%nat with O by lia. simpl. apply Hx.
  - rewrite (firstn_all2 xs) by lia. apply steady_firstn. exact Hy.
Qed.

(** *** What each handler does *)

(** Unfold the operations of the monad. *)
Ltac unfold_prims :=
  cbv [exec revoke_if_present perform bind ret throw fst snd
       preventDefault setImage setPreviewUrl setIsDragging setTreeQuantity
       setTreeName setSelectedDistrict setError setSuccess setSubmitting
       revokeImagePreview createImagePreview fetch routerPush setTimeout
       try_catch_finally await_fetch await_json json_error new_Error].

(** A draft that fails the validation pass: [handleSubmit] shows the
    message of the first failing check and is finished. *)
Lemma handleSubmit_rejects (snap : PageState) (u : option User) (m : Machine)
    (message : string) :
  validation_failure snap = Some message ->
  handleSubmit snap u m =
    (Value Finished,
     {| page := with_error (Some message) (with_success None (with_error None (page m)));
        log := log m ++ [PreventDefault; SetError None; SetSuccess None;
                         SetError (Some message)];
        next_handle := next_handle m; timers := timers m |}).
Proof.
  unfold validation_failure, handleSubmit. rewrite trim_truthy, negb_involutive.
  destruct (selectedDistrict snap), (image snap), (blank (treeName snap)),
    (treeQuantity snap <? 1); intros E; try discriminate E;
    injection E as <-; unfold_prims; simpl; rewrite <- ?app_assoc; reflexivity.
Qed.

(** A draft that passes: [handleSubmit] sets the flag, issues the request
    and waits. *)
Lemma handleSubmit_issues (snap : PageState) (u : option User) (m : Machine) :
  validation_failure snap = None ->
  exists district img,
    selectedDistrict snap = Some district /\ image snap = Some img /\
    handleSubmit snap u m =
      (Value AwaitingFetch,
       {| page := with_submitting true (with_success None (with_error None (page m)));
          log := log m ++ [PreventDefault; SetError None; SetSuccess None;
                           SetSubmitting true;
                           Fetch "/api/plant" "POST" (build_formData district img snap u)];
          next_handle := next_handle m; timers := timers m |}).
Proof.
  unfold validation_failure, handleSubmit. rewrite trim_truthy, negb_involutive.
  destruct (selectedDistrict snap) as [d|], (image snap) as [img|],
    (blank (treeName snap)), (treeQuantity snap <? 1); intros E; try discriminate E.
  exists d, img. repeat split.
  unfold_prims; simpl; rewrite <- ?app_assoc; reflexivity.
Qed.

(** The rest of [handleSubmit], by whether its [try] block throws. *)
Lemma handleSubmit_resume_run (snap : PageState) (o : FetchOutcome) (m : Machine) :
  handleSubmit_resume snap o m =
    (Value tt,
     match thrown_message o with
     | None =>
         {| page := cleared (page m);
            log := log m ++
                   [SetSuccess (Some "Tree contribution submitted successfully!");
                    SetImage None] ++ revokes (previewUrl snap) ++
                   [SetPreviewUrl None; SetTreeName ""; SetTreeQuantity 1;
                    SetSelectedDistrict None; SetTimeout "/contribution" 2000;
                    SetSubmitting false];
            next_handle := next_handle m;
            timers := timers m ++ [("/contribution", 2000)] |}
     | Some message =>
         let shown := or_string (Some message) "Failed to submit contribution" in
         {| page := with_submitting false (with_error (Some shown) (page m));
            log := log m ++ [SetError (Some shown); SetSubmitting false];
            next_handle := next_handle m; timers := timers m |}
     end).
Proof.
  unfold handleSubmit_resume, thrown_message.
  destruct o as [msg | status [json | msg]]; unfold_prims; simpl;
    rewrite <- ?app_assoc; try reflexivity.
  destruct (ok status); simpl.
  - destruct (previewUrl snap); simpl; rewrite <- ?app_assoc; reflexivity.
  - unfold error_message.
    destruct json as [| | | | |members]; simpl; rewrite <- ?app_assoc;
      try reflexivity.
    destruct (member "error" members) as [v|]; simpl;
      [destruct (truthy v); simpl; [destruct (toString v); simpl|]|];
      rewrite <- ?app_assoc; reflexivity.
Qed.

(** *** The invariant of the component *)

(** [Live_inv] carries over to a state whose log adds a steady run that
    ends with the preview slot of that state. *)
Lemma live_inv_extend (a a' : App) (delta : list Op) :
  Live_inv a ->
  log (machine a') = log (machine a) ++ delta ->
  steady (live_handles (machine a)) delta = true ->
  live_after (live_handles (machine a)) delta
    = (if mounted a' then preview_slot (current a') else []) ->
  (forall h, previewUrl (current a') = Some h -> (h < next_handle (machine a'))%nat) ->
  Live_inv a'.
Proof.
  intros (H1 & H2 & _) L S E F. unfold Live_inv, live_handles in *.
  rewrite L. split; [|split].
  - rewrite live_after_app. exact E.
  - apply calm_app; assumption.
  - exact F.
Qed.

(** The log of the new state is the old one followed by some operations. *)
Ltac log_eq := first [ symmetry; apply app_nil_r | rewrite <- ?app_assoc; reflexivity ].

(** Replay the added operations on the live handles. *)
Ltac live_goals H1 H3 :=
  unfold live_handles, preview_slot, current; simpl; rewrite ?H1; simpl;
  repeat first
    [ progress (rewrite Nat.eqb_refl; simpl)
    | match goal with
      | Hf : Nat.eqb ?a ?b = _ |- context [Nat.eqb ?a ?b] => rewrite Hf; simpl
      end
    | match goal with
      | |- context [Nat.eqb ?a ?b] => destruct (Nat.eqb a b) eqn:?; simpl
      end ];
  try reflexivity;
  try (let k := fresh "k" in let E := fresh "E" in
       intros k E;
       first [ discriminate E
             | injection E as <-; first [ lia | apply H3; reflexivity ] ]).

(** Unfold the dispatch of an event, the commit and the short handlers. *)
Ltac app_plumbing :=
  cbv [dispatch commit exec with_machine with_page current previewCleanup
       handleDistrictSelect handleQuantityChange handleTreeNameChange
       handleImageChange handleDragOver handleDragLeave handleDrop
       redirectEffect revoke_if_present perform bind ret fst snd
       preventDefault setIsDragging setTreeQuantity
       setTreeName setSelectedDistrict setError 
       revokeImagePreview routerPush 
       with_image with_previewUrl with_isDragging with_treeQuantity with_treeName
       with_selectedDistrict with_error with_success with_submitting cleared
       page log next_handle timers machine mounted session inflight
       previewUrl same_handle].

Ltac extend H H1 H3 :=
  eapply live_inv_extend; [exact H | simpl; log_eq | live_goals H1 H3 .. ].

Ltac flight HF :=
  unfold Flight_inv, current in *; simpl in *;
  first [ exact HF
        | split; [ simpl; lia | intros _; reflexivity ]
        | split; [ simpl; lia | intros; discriminate ] ].

Ltac finish H H1 H3 HF HQ :=
  split; [ extend H H1 H3 | split; [ flight HF | simpl in *; lia ] ].

Section Invariant.

Variable validateImageFile : File -> Validation.

(** [handleImageFile] on a file that the validation turns down, and on
    one that it accepts. *)
Lemma handleImageFile_invalid (snap : PageState) (f : File) (m : Machine) :
  valid (validateImageFile f) = false ->
  handleImageFile validateImageFile snap f m =
    (Value tt,
     let shown := or_string (validation_error (validateImageFile f))
                    "Invalid image file" in
     {| page := with_error (Some shown) (page m);
        log := log m ++ [SetError (Some shown)];
        next_handle := next_handle m; timers := timers m |}).
Proof. intros V. unfold Plant.handleImageFile. rewrite V. reflexivity. Qed.

Lemma handleImageFile_valid (snap : PageState) (f : File) (m : Machine) :
  valid (validateImageFile f) = true ->
  handleImageFile validateImageFile snap f m =
    (Value tt,
     {| page := with_success None (with_error None
                  (with_previewUrl (Some (next_handle m))
                     (with_image (Some f) (page m))));
        log := log m ++ revokes (previewUrl snap) ++
               [SetImage (Some f); CreateImagePreview f (next_handle m);
                SetPreviewUrl (Some (next_handle m)); SetError None;
                SetSuccess None];
        next_handle := S (next_handle m); timers := timers m |}).
Proof.
  intros V. unfold Plant.handleImageFile. rewrite V.
  destruct (previewUrl snap); unfold_prims; simpl; rewrite <- ?app_assoc;
    reflexivity.
Qed.

(** Every event preserves the invariant. *)
Lemma step_inv (a : App) (e : Event) :
  Inv a -> Inv (step validateImageFile a e).
Proof.
  intros HI. pose proof HI as (H & HF & HQ). pose proof H as (H1 & H2 & H3).
  destruct a as [mt ss [p lg nh tm] fl].
  destruct p as [im pv dr tq tn sd er su sb].
  unfold live_handles, preview_slot in H1. simpl in H1, H2, H3.
  assert (F : forall h, pv = Some h -> Nat.eqb h nh = false /\ Nat.eqb nh h = false).
  { intros h E. specialize (H3 h E). split; apply Nat.eqb_neq; lia. }
  destruct e; unfold Plant.step;
    try (destruct (interactive _) eqn:I; [|exact HI];
         destruct mt; [|discriminate I]).
  - (* AuthChange *)
    destruct mt; [|exact HI]. simpl mounted. cbv iota.
    destruct (same_deps _ s).
    + destruct pv; finish H H1 H3 HF HQ.
    + unfold redirectEffect. destruct (loading s), (user s); app_plumbing; simpl;
        destruct pv; finish H H1 H3 HF HQ.
  - app_plumbing. destruct pv; rewrite ?Nat.eqb_refl; finish H H1 H3 HF HQ.
  - app_plumbing. destruct pv; rewrite ?Nat.eqb_refl; finish H H1 H3 HF HQ.
  - app_plumbing. destruct pv; rewrite ?Nat.eqb_refl; finish H H1 H3 HF HQ.
  - (* ImageChange *)
    destruct files as [|f rest].
    + app_plumbing. destruct pv; rewrite ?Nat.eqb_refl; finish H H1 H3 HF HQ.
    + unfold dispatch, exec, handleImageChange, current. simpl machine. simpl page.
      destruct (valid (validateImageFile f)) eqn:V.
      * rewrite (handleImageFile_valid _ _ _ V). app_plumbing.
        destruct pv as [h|]; [destruct (F h eq_refl) as [F1 F2]; rewrite F1|];
          finish H H1 H3 HF HQ.
      * rewrite (handleImageFile_invalid _ _ _ V). app_plumbing.
        destruct pv; rewrite ?Nat.eqb_refl; finish H H1 H3 HF HQ.
  - app_plumbing. destruct pv; rewrite ?Nat.eqb_refl; finish H H1 H3 HF HQ.
  - app_plumbing. destruct pv; rewrite ?Nat.eqb_refl; finish H H1 H3 HF HQ.
  - (* Drop *)
    destruct files as [|f rest].
    + app_plumbing. destruct pv; rewrite ?Nat.eqb_refl; finish H H1 H3 HF HQ.
    + unfold dispatch, exec, handleDrop, current, bind, preventDefault,
        setIsDragging, perform.
      simpl machine. simpl page.
      destruct (valid (validateImageFile f)) eqn:V.
      * rewrite (handleImageFile_valid _ _ _ V). app_plumbing.
        destruct pv as [h|]; [destruct (F h eq_refl) as [F1 F2]; rewrite F1|];
          finish H H1 H3 HF HQ.
      * rewrite (handleImageFile_invalid _ _ _ V). app_plumbing.
        destruct pv; rewrite ?Nat.eqb_refl; finish H H1 H3 HF HQ.
  - (* Submit *)
    destruct (can_submit _) eqn:I; [|exact HI].
    destruct ss as [us ld]. unfold can_submit, render in I. simpl in I.
    destruct mt; [|discriminate I].
    destruct ld; [discriminate I|].
    destruct us as [u|]; [|discriminate I].
    destruct sb; [discriminate I|]. clear I.
    destruct HF as [HF1 HF2]. specialize (HF2 eq_refl). simpl in HF2.
    destruct fl as [|x fl]; [clear HF2|discriminate HF2].
    unfold dispatch, exec, current. cbn [machine page session user].
    destruct (validation_failure
                {| image := im; previewUrl := pv; isDragging := dr;
                   treeQuantity := tq; treeName := tn; selectedDistrict := sd;
                   error := er; success := su; submitting := false |})
      as [msg|] eqn:V.
    + rewrite (handleSubmit_rejects _ _ _ _ V). app_plumbing.
      destruct pv; rewrite ?Nat.eqb_refl; finish H H1 H3 HF1 HQ.
    + destruct (handleSubmit_issues _ (Some u)
                  {| page := {| image := im; previewUrl := pv; isDragging := dr;
                                treeQuantity := tq; treeName := tn;
                                selectedDistrict := sd; error := er;
                                success := su; submitting := false |};
                     log := lg; next_handle := nh; timers := tm |} V)
        as (d & img & _ & _ & E).
      rewrite E. app_plumbing.
      destruct pv; rewrite ?Nat.eqb_refl; finish H H1 H3 HF1 HQ.
  - (* FetchSettled *)
    destruct (nth_error _ i) as [snap|] eqn:N; [|exact HI].
    simpl in N. destruct HF as [HF1 HF2]. simpl in HF1.
    destruct fl as [|x [|y fl]]; [destruct i; discriminate N| |simpl in HF1; lia].
    destruct i as [|i]; [|destruct i; discriminate N].
    clear HF1 HF2. simpl inflight. simpl remove_nth.
    unfold exec. rewrite handleSubmit_resume_run.
    destruct (thrown_message o) as [msg|]; destruct mt; app_plumbing;
      destruct pv as [h|]; rewrite ?Nat.eqb_refl;
      try destruct snap as [? [k|] ? ? ? ? ? ? ?]; simpl revokes;
      finish H H1 H3 HQ HQ.
  - (* TimerFired *)
    simpl timers. destruct tm as [|[path ms] rest]; [exact HI|].
    app_plumbing. destruct mt, pv; finish H H1 H3 HF HQ.
  - (* Unmount *)
    destruct mt; [|exact HI]. app_plumbing. destruct pv; finish H H1 H3 HF HQ.
Qed.

Lemma mount_inv (s : Session) : Inv (mount s).
Proof.
  unfold Inv, Live_inv, Flight_inv, mount, redirectEffect, live_handles.
  destruct (loading s), (user s); simpl;
    (repeat split; try lia; try discriminate;
     intros k; destruct k as [|[|k]]; simpl; lia).
Qed.

Lemma run_inv (es : list Event) :
  forall a : App, Inv a -> Inv (run validateImageFile a es).
Proof.
  induction es as [|e es IH]; intros a H; simpl.
  - exact H.
  - apply IH, step_inv, H.
Qed.

(** Every state the component can reach satisfies the invariant. *)
Lemma reachable_inv (s : Session) (es : list Event) :
  Inv (run validateImageFile (mount s) es).
Proof. apply run_inv, mount_inv. Qed.

End Invariant.

Section Submission.
Variable validateImageFile : File -> Validation.

(** *** The steps of a submission, spelled out *)

Lemma same_handle_refl (x : option Handle) : same_handle x x = true.
Proof. destruct x; simpl; [apply Nat.eqb_refl | reflexivity]. Qed.

(** A submit request that the control accepts: the validation pass either
    stops with a message, or the request is issued and its continuation
    waits with the snapshot of this render. *)
Lemma submit_step (a : App) :
  can_submit a = true ->
  step validateImageFile a Submit =
    let m := machine a in
    match validation_failure (current a) with
    | Some message =>
        with_machine
          {| page := with_error (Some message)
                       (with_success None (with_error None (page m)));
             log := log m ++ [PreventDefault; SetError None; SetSuccess None;
                              SetError (Some message)];
             next_handle := next_handle m; timers := timers m |} a
    | None =>
        match selectedDistrict (current a), image (current a) with
        | Some district, Some img =>
            {| mounted := mounted a; session := session a;
               machine :=
                 {| page := with_submitting true
                              (with_success None (with_error None (page m)));
                    log := log m ++
                           [PreventDefault; SetError None; SetSuccess None;
                            SetSubmitting true;
                            Fetch "/api/plant" "POST"
                              (build_formData district img (current a)
                                 (user (session a)))];
                    next_handle := next_handle m; timers := timers m |};
               inflight := inflight a ++ [current a] |}
        | _, _ => a
        end
    end.
Proof.
  intros C. unfold step. rewrite C. unfold dispatch, exec, commit.
  destruct (validation_failure (current a)) as [message|] eqn:V.
  - rewrite (handleSubmit_rejects _ _ _ _ V). cbn [fst snd page previewUrl].
    unfold with_error, with_success; cbn [previewUrl].
    unfold current. rewrite same_handle_refl. reflexivity.
  - destruct (handleSubmit_issues _ (user (session a)) (machine a) V)
      as (d & img & Ed & Ei & E).
    rewrite E, Ed, Ei. cbn [fst snd page previewUrl].
    unfold with_error, with_success, with_submitting; cbn [previewUrl].
    unfold current. rewrite same_handle_refl. reflexivity.
Qed.

(** The request of a mounted component settles: the rest of
    [handleSubmit] runs on the snapshot it was started with, and the
    updates are committed. *)
Lemma settle_step (a : App) (i : nat) (snap : PageState) (o : FetchOutcome) :
  mounted a = true ->
  nth_error (inflight a) i = Some snap ->
  step validateImageFile a (FetchSettled i o) =
    let m := machine a in
    {| mounted := true; session := session a;
       machine :=
         match thrown_message o with
         | None =>
             {| page := cleared (page m);
                log := log m ++
                       [SetSuccess (Some "Tree contribution submitted successfully!");
                        SetImage None] ++ revokes (previewUrl snap) ++
                       [SetPreviewUrl None; SetTreeName ""; SetTreeQuantity 1;
                        SetSelectedDistrict None;
                        SetTimeout "/contribution" 2000; SetSubmitting false] ++
                       revokes (previewUrl (page m));
                next_handle := next_handle m;
                timers := timers m ++ [("/contribution", 2000)] |}
         | Some message =>
             let shown := or_string (Some message) "Failed to submit contribution" in
             {| page := with_submitting false (with_error (Some shown) (page m));
                log := log m ++ [SetError (Some shown); SetSubmitting false];
                next_handle := next_handle m; timers := timers m |}
         end;
       inflight := remove_nth i (inflight a) |}.
Proof.
  intros Mt N. unfold step. rewrite N, Mt. unfold exec, commit, current.
  rewrite handleSubmit_resume_run. cbn [snd]. f_equal.
  destruct (thrown_message o) as [message|].
  - cbn [page]. unfold with_submitting, with_error; cbn [previewUrl].
    rewrite same_handle_refl. reflexivity.
  - cbn [page]. unfold cleared at 1; cbn [previewUrl].
    unfold previewCleanup, exec.
    destruct (previewUrl (page (machine a))) as [h|]; simpl;
      destruct (previewUrl snap); simpl; rewrite <- ?app_assoc; simpl;
      rewrite ?app_nil_r; reflexivity.
Qed.

(** *** The validation pass *)

(** C3: for every draft state, the validation pass of [handleSubmit]
    checks in this order that a district is selected, that a photo is
    attached, that the tree name is not blank after trimming and that
    the quantity is at least 1; the first check that fails sets its
    message and the handler returns without issuing a request; when all
    four pass, one request is issued. *)
Theorem validation_pass (a : App) :
  can_submit a = true ->
  let a' := step validateImageFile a Submit in
  match validation_failure (current a) with
  | Some message =>
      error (current a') = Some message /\
      log (machine a') =
        log (machine a) ++
        [PreventDefault; SetError None; SetSuccess None; SetError (Some message)] /\
      inflight a' = inflight a /\
      submitting (current a') = submitting (current a)
  | None =>
      exists district img,
        selectedDistrict (current a) = Some district /\
        image (current a) = Some img /\
        log (machine a') =
          log (machine a) ++
          [PreventDefault; SetError None; SetSuccess None; SetSubmitting true;
           Fetch "/api/plant" "POST"
             (build_formData district img (current a) (user (session a)))] /\
        inflight a' = inflight a ++ [current a]
  end.
Proof.
  intros C. cbv zeta. rewrite (submit_step a C). cbv zeta.
  destruct (validation_failure (current a)) as [message|] eqn:V.
  - repeat split.
  - destruct (handleSubmit_issues _ (user (session a)) (machine a) V)
      as (d & img & Ed & Ei & _).
    fold (current a). rewrite Ed, Ei. exists d, img. repeat split.
Qed.

(** *** The quantity input *)

(** C4: the handler of the quantity input stores
    [max(1, parseInt(value) || 1)]; the inputs "0", "-5" and every text
    that [parseInt] reads as [NaN] store 1; the stored quantity is at
    least 1 in every state the component reaches, so also before any
    validation pass. *)
Theorem quantity_entry (value : string) (a : App) (s : Session) (es : list Event) :
  let stored v := treeQuantity (current (step validateImageFile a (QuantityChange v))) in
  (if interactive a
   then stored value = Z.max 1 (or_number (parseInt value) 1) /\
        match parseInt value with
        | None => stored value = 1
        | Some n => stored value = if n <? 1 then 1 else n
        end /\
        stored "0" = 1 /\ stored "-5" = 1 /\ stored "abc" = 1 /\ stored "" = 1
   else step validateImageFile a (QuantityChange value) = a) /\
  1 <= treeQuantity (current (run validateImageFile (mount s) es)).
Proof.
  cbv zeta. split.
  - unfold step. destruct (interactive a); [|reflexivity].
    unfold dispatch, commit, exec, handleQuantityChange, setTreeQuantity, perform,
      current, with_machine. cbn [snd page machine with_treeQuantity previewUrl].
    rewrite same_handle_refl. cbn [page machine treeQuantity].
    repeat split.
    destruct (parseInt value) as [n|]; [|reflexivity].
    unfold or_number, with_treeQuantity. cbn [treeQuantity].
    destruct (Z.eqb_spec n 0), (Z.ltb_spec n 1); lia.
  - exact (proj2 (proj2 (reachable_inv validateImageFile s es))).
Qed.

(** *** The submitting flag *)

(** C10: when a call of [handleSubmit] passes validation, it sets
    [submitting] to true before it issues the request, and however the
    network call settles (success, a status outside 2xx, a rejection or
    another thrown error) the rest of the call ends, by its [finally]
    block, with [submitting] set to false and lets no error escape; so
    the mounted component is not [submitting] once the call has
    settled. *)
Theorem submitting_flag (snap : PageState) (u : option User) (m : Machine) :
  fst (handleSubmit snap u m) = Value AwaitingFetch ->
  (exists body,
      log (exec (handleSubmit snap u) m) =
        log m ++ [PreventDefault; SetError None; SetSuccess None;
                  SetSubmitting true; Fetch "/api/plant" "POST" body] /\
      submitting (page (exec (handleSubmit snap u) m)) = true) /\
  (forall (o : FetchOutcome) (m' : Machine),
      fst (handleSubmit_resume snap o m') = Value tt /\
      submitting (page (exec (handleSubmit_resume snap o) m')) = false /\
      exists ops,
        log (exec (handleSubmit_resume snap o) m') =
          log m' ++ ops ++ [SetSubmitting false]) /\
  (forall (a : App) (i : nat) (o : FetchOutcome),
      mounted a = true ->
      nth_error (inflight a) i = Some snap ->
      submitting (current (step validateImageFile a (FetchSettled i o))) = false).
Proof.
  intros A. split; [|split].
  - destruct (validation_failure snap) as [message|] eqn:V.
    + rewrite (handleSubmit_rejects _ u m _ V) in A. discriminate A.
    + destruct (handleSubmit_issues _ u m V) as (d & img & _ & _ & E).
      unfold exec. rewrite E. eexists. split; reflexivity.
  - intros o m'. unfold exec. rewrite handleSubmit_resume_run. cbn [fst snd].
    split; [reflexivity|].
    destruct (thrown_message o) as [message|]; cbn [page log]; split;
      try reflexivity.
    + exists [SetError (Some (or_string (Some message) "Failed to submit contribution"))].
      reflexivity.
    + exists ([SetSuccess (Some "Tree contribution submitted successfully!");
               SetImage None] ++ revokes (previewUrl snap) ++
              [SetPreviewUrl None; SetTreeName ""; SetTreeQuantity 1;
               SetSelectedDistrict None; SetTimeout "/contribution" 2000]).
      destruct (previewUrl snap); reflexivity.
  - intros a i o Mt N. rewrite (settle_step a i snap o Mt N).
    cbv zeta. unfold current. cbn [machine].
    destruct (thrown_message o); reflexivity.
Qed.

(** *** One request at a time *)

(** C5: in every state the component reaches at most one request is in
    flight; the mounted component is [submitting] exactly while one is;
    and while it is, a submit request changes nothing: the submit
    control is disabled, so no second request is started. *)
Theorem single_flight (s : Session) (es : list Event) :
  let a := run validateImageFile (mount s) es in
  (length (inflight a) <= 1)%nat /\
  (mounted a = true ->
   submitting (current a) = match inflight a with [] => false | _ => true end) /\
  (inflight a <> [] -> step validateImageFile a Submit = a) /\
  (submitting (current a) = true -> step validateImageFile a Submit = a).
Proof.
  cbv zeta. destruct (reachable_inv validateImageFile s es) as (_ & (L & B) & _).
  set (a := run validateImageFile (mount s) es) in *.
  assert (G : submitting (current a) = true -> step validateImageFile a Submit = a).
  { intros Sb. unfold step, can_submit, render, form_view.
    cbn [submit_disabled]. rewrite Sb.
    destruct (mounted a), (loading (session a)), (user (session a)); reflexivity. }
  repeat split; try assumption.
  intros Ne. destruct (mounted a) eqn:Mt.
  - apply G. rewrite (B eq_refl). destruct (inflight a); [contradiction|reflexivity].
  - unfold step, can_submit. rewrite Mt. reflexivity.
Qed.

(** *** The preview handle *)

Lemma run_snoc (a : App) (es : list Event) (e : Event) :
  run validateImageFile a (es ++ [e]) = step validateImageFile (run validateImageFile a es) e.
Proof. unfold run. rewrite fold_left_app. reflexivity. Qed.

Lemma run_app (a : App) (es later : list Event) :
  run validateImageFile a (es ++ later) =
  run validateImageFile (run validateImageFile a es) later.
Proof. unfold run. apply fold_left_app. Qed.

(** C6: when a valid file is selected while a preview is live,
    [handleImageFile] releases the existing handle, then stores the file,
    then creates the new preview and stores its handle; at every instant
    of every run of the component at most one preview handle is live. *)
Theorem preview_replacement (s : Session) (es : list Event) (f : File)
    (rest : list File) (h : Handle) :
  let a := run validateImageFile (mount s) es in
  let n := next_handle (machine a) in
  let a' := step validateImageFile a (ImageChange (f :: rest)) in
  interactive a = true ->
  previewUrl (current a) = Some h ->
  valid (validateImageFile f) = true ->
  log (exec (handleImageFile validateImageFile (current a) f) (machine a)) =
    log (machine a) ++
    [RevokeImagePreview h; SetImage (Some f); CreateImagePreview f n;
     SetPreviewUrl (Some n); SetError None; SetSuccess None] /\
  log (machine a') =
    log (machine a) ++
    [RevokeImagePreview h; SetImage (Some f); CreateImagePreview f n;
     SetPreviewUrl (Some n); SetError None; SetSuccess None;
     RevokeImagePreview h] /\
  image (current a') = Some f /\
  previewUrl (current a') = Some n /\
  live_handles (machine a) = [h] /\
  live_handles (machine a') = [n] /\
  (forall k, (length (live_after [] (firstn k (log (machine a')))) <= 1)%nat).
Proof.
  cbv zeta. intros I P V.
  pose proof (reachable_inv validateImageFile s (es ++ [ImageChange (f :: rest)]))
    as ((L' & C' & _) & _).
  rewrite run_snoc in L', C'.
  destruct (reachable_inv validateImageFile s es) as ((L & _ & F) & _).
  set (a := run validateImageFile (mount s) es) in *.
  assert (Mt : mounted a = true).
  { unfold interactive in I. destruct (mounted a); [reflexivity|discriminate I]. }
  specialize (F h P).
  assert (E : step validateImageFile a (ImageChange (f :: rest)) =
              with_machine
                {| page := with_success None (with_error None
                             (with_previewUrl (Some (next_handle (machine a)))
                                (with_image (Some f) (page (machine a)))));
                   log := log (machine a) ++
                          [RevokeImagePreview h; SetImage (Some f);
                           CreateImagePreview f (next_handle (machine a));
                           SetPreviewUrl (Some (next_handle (machine a)));
                           SetError None; SetSuccess None; RevokeImagePreview h];
                   next_handle := S (next_handle (machine a));
                   timers := timers (machine a) |} a).
  { clear L' C' L. clearbody a.
    destruct a as [mt ss [[im pv dr tq tn sd er su sb] lg nh tm] fl].
    unfold current in P. simpl in P, Mt, F. subst pv mt.
    unfold step. rewrite I.
    unfold dispatch, handleImageChange, exec, current. cbn [machine page].
    rewrite (handleImageFile_valid validateImageFile _ _ _ V). app_plumbing.
    replace (Nat.eqb h nh) with false by (symmetry; apply Nat.eqb_neq; lia).
    simpl. rewrite <- !app_assoc. reflexivity. }
  rewrite E in *. clear E.
  split; [|split; [|split; [|split; [|split; [|split]]]]].
  - unfold exec. rewrite (handleImageFile_valid validateImageFile _ _ _ V), P.
    reflexivity.
  - reflexivity.
  - reflexivity.
  - reflexivity.
  - rewrite L, Mt. unfold preview_slot. rewrite P. reflexivity.
  - rewrite L'. cbn [mounted with_machine]. rewrite Mt. reflexivity.
  - exact C'.
Qed.

Lemma unmounted_stays (a : App) (e : Event) :
  mounted a = false -> mounted (step validateImageFile a e) = false.
Proof.
  intros Mt. destruct e as [t|d|v|v|fs| | |fs| |i o| | ];
    unfold step, interactive, can_submit; rewrite ?Mt; cbn [andb];
    cbv beta iota; try exact Mt; try reflexivity.
  - destruct (nth_error (inflight a) i); [reflexivity | exact Mt].
  - destruct (timers (machine a)) as [|[path ms] r]; exact Mt.
Qed.

Lemma unmounted_run (es : list Event) :
  forall a : App, mounted a = false -> mounted (run validateImageFile a es) = false.
Proof.
  induction es as [|e es IH]; intros a Mt; simpl; [exact Mt|].
  apply IH, unmounted_stays, Mt.
Qed.

(** C8: when the component is torn down, the clean-up of the preview
    effect releases the handle the component holds, whether or not a
    request is in flight (which the tear-down leaves alone); from then on,
    whatever happens, no preview handle is live. *)
Theorem teardown_releases (s : Session) (es later : list Event) :
  let a := run validateImageFile (mount s) es in
  let a' := step validateImageFile a Unmount in
  (if mounted a
   then log (machine a') = log (machine a) ++ revokes (previewUrl (current a)) /\
        live_handles (machine a) = preview_slot (current a)
   else a' = a) /\
  inflight a' = inflight a /\
  live_handles (machine a') = [] /\
  live_handles (machine (run validateImageFile a' later)) = [].
Proof.
  cbv zeta.
  pose proof (reachable_inv validateImageFile s (es ++ [Unmount])) as ((L1 & _) & _).
  pose proof (reachable_inv validateImageFile s ((es ++ [Unmount]) ++ later))
    as ((L2 & _) & _).
  rewrite run_app in L2. rewrite run_snoc in L1, L2.
  destruct (reachable_inv validateImageFile s es) as ((L & _) & _).
  set (a := run validateImageFile (mount s) es) in *.
  assert (U : mounted (step validateImageFile a Unmount) = false).
  { unfold step. destruct (mounted a) eqn:Mt; [reflexivity | exact Mt]. }
  rewrite (unmounted_run later _ U) in L2. rewrite U in L1.
  repeat split; try assumption.
  - unfold step. destruct (mounted a) eqn:Mt; [|reflexivity].
    split; [|exact L].
    unfold previewCleanup, exec, current. cbn [machine].
    destruct (previewUrl (page (machine a))); simpl;
      [reflexivity | symmetry; apply app_nil_r].
  - unfold step. destruct (mounted a); reflexivity.
Qed.

(** *** How a submission ends *)

(** C1, as the code has it: when the request of a mounted component is
    answered with a 2xx status and a body that parses as JSON, the rest
    of [handleSubmit] sets the success status, clears the photo, the tree
    name, the quantity (back to 1), the district and the preview slot,
    releases the preview handle of the render that submitted, and
    schedules one navigation to [/contribution] after 2000 ms; after the
    commit that follows no preview handle is live. *)
Theorem success_clears_draft (s : Session) (es : list Event) (i : nat)
    (snap : PageState) (status : Z) (json : JSON) :
  let a := run validateImageFile (mount s) es in
  let a' := step validateImageFile a (FetchSettled i (Responded status (Parsed json))) in
  mounted a = true ->
  nth_error (inflight a) i = Some snap ->
  ok status = true ->
  image (current a') = None /\
  previewUrl (current a') = None /\
  treeName (current a') = "" /\
  treeQuantity (current a') = 1 /\
  selectedDistrict (current a') = None /\
  success (current a') = Some "Tree contribution submitted successfully!" /\
  submitting (current a') = false /\
  log (machine a') =
    log (machine a) ++
    [SetSuccess (Some "Tree contribution submitted successfully!"); SetImage None] ++
    revokes (previewUrl snap) ++
    [SetPreviewUrl None; SetTreeName ""; SetTreeQuantity 1;
     SetSelectedDistrict None; SetTimeout "/contribution" 2000;
     SetSubmitting false] ++
    revokes (previewUrl (current a)) /\
  timers (machine a') = timers (machine a) ++ [("/contribution", 2000)] /\
  live_handles (machine a') = [] /\
  inflight a' = [].
Proof.
  cbv zeta. intros Mt N Ok.
  pose proof (reachable_inv validateImageFile s
                (es ++ [FetchSettled i (Responded status (Parsed json))]))
    as ((L' & _) & (F1 & F2) & _).
  rewrite run_snoc in L', F1, F2.
  set (a := run validateImageFile (mount s) es) in *.
  rewrite (settle_step a i snap _ Mt N) in *.
  cbv zeta in *. unfold thrown_message in *. rewrite Ok in *.
  specialize (F2 eq_refl). unfold current in *. cbn [machine mounted inflight] in *.
  cbn [page cleared submitting previewUrl] in *.
  repeat split.
  - rewrite L'. reflexivity.
  - destruct (remove_nth i (inflight a)); [reflexivity | discriminate F2].
Qed.

(** C2, as the code has it: when the request of a mounted component is
    answered with a status outside 2xx, the draft fields are left as they
    are, no navigation is scheduled, an error message that is not empty is
    shown and the submit control is enabled again, whatever the body.
    When the body parses as JSON and is not [null], the message is the
    conversion to a string of the [error] member of the body, when the
    body is an object, the member is truthy and the conversion succeeds
    and is not empty (a non-empty string is shown as it is); it is the
    message of the conversion error when the conversion throws; and it is
    the generic message otherwise: the body is not an object, or the
    member is absent, falsy, or converted to the empty string. *)
Theorem failure_keeps_draft (s : Session) (es : list Event) (i : nat)
    (snap : PageState) (status : Z) (body : Body) :
  let a := run validateImageFile (mount s) es in
  let a' := step validateImageFile a (FetchSettled i (Responded status body)) in
  let generic := "Failed to submit contribution" in
  mounted a = true ->
  nth_error (inflight a) i = Some snap ->
  ok status = false ->
  (selectedDistrict (current a') = selectedDistrict (current a) /\
   image (current a') = image (current a) /\
   previewUrl (current a') = previewUrl (current a) /\
   treeName (current a') = treeName (current a) /\
   treeQuantity (current a') = treeQuantity (current a) /\
   success (current a') = success (current a) /\
   timers (machine a') = timers (machine a) /\
   live_handles (machine a') = live_handles (machine a)) /\
  submitting (current a') = false /\
  submit_disabled (form_view (current a')) = false /\
  (exists message,
      error (current a') = Some message /\ truthy_string message = true) /\
  (forall members text,
      body = Parsed (JObj members) ->
      member "error" members = Some (JStr text) -> text <> "" ->
      error (current a') = Some text) /\
  (forall members v text,
      body = Parsed (JObj members) ->
      member "error" members = Some v -> truthy v = true ->
      toString v = Some text ->
      error (current a') = Some (if truthy_string text then text else generic)) /\
  (forall members v,
      body = Parsed (JObj members) ->
      member "error" members = Some v -> truthy v = true ->
      toString v = None ->
      error (current a') = Some no_primitive_message) /\
  (forall members v,
      body = Parsed (JObj members) ->
      member "error" members = Some v -> truthy v = false ->
      error (current a') = Some generic) /\
  (forall members,
      body = Parsed (JObj members) -> member "error" members = None ->
      error (current a') = Some generic) /\
  (forall json,
      body = Parsed json -> json <> JNull ->
      (forall members, json <> JObj members) ->
      error (current a') = Some generic).
Proof.
  cbv zeta. intros Mt N Ok.
  set (a := run validateImageFile (mount s) es) in *.
  rewrite (settle_step a i snap _ Mt N). cbv zeta.
  assert (T : exists message, thrown_message (Responded status body) = Some message).
  { unfold thrown_message. rewrite Ok.
    destruct body as [[| | | | |]|]; eexists; reflexivity. }
  destruct T as (message & T). rewrite T.
  unfold current, live_handles. cbn [machine page log timers].
  split; [|split; [|split; [|split; [|split; [|split; [|split; [|split; [|split]]]]]]]].
  - unfold with_submitting, with_error; cbn.
    rewrite live_after_app. repeat split.
  - reflexivity.
  - reflexivity.
  - eexists. split; [reflexivity|].
    unfold or_string. destruct (truthy_string message) eqn:M; [exact M|reflexivity].
  - intros members text -> E Ne. unfold thrown_message, error_message in T.
    rewrite Ok, E in T. cbn [truthy toString] in T.
    destruct text; [contradiction|]. injection T as <-. reflexivity.
  - intros members v text -> E Tv Sv. unfold thrown_message, error_message in T.
    rewrite Ok, E, Tv, Sv in T. injection T as <-. reflexivity.
  - intros members v -> E Tv Sv. unfold thrown_message, error_message in T.
    rewrite Ok, E, Tv, Sv in T. injection T as <-. reflexivity.
  - intros members v -> E Tv. unfold thrown_message, error_message in T.
    rewrite Ok, E, Tv in T. injection T as <-. reflexivity.
  - intros members -> E. unfold thrown_message, error_message in T.
    rewrite Ok, E in T. injection T as <-. reflexivity.
  - intros json -> Ne No. unfold thrown_message in T. rewrite Ok in T.
    destruct json as [| | | | |members]; try contradiction;
      try (injection T as <-; reflexivity).
    exfalso. exact (No members eq_refl).
Qed.

(** C9, as the code has it: a second submit request after a successful
    submission, before the delayed navigation fires, issues no request,
    changes no draft field and leaves the scheduled navigation in place;
    it runs the validation pass on the cleared form, which removes the
    success message and shows "Please select a district". *)
Theorem resubmit_after_success (a : App) (i : nat) (snap : PageState)
    (status : Z) (json : JSON) :
  let a1 := step validateImageFile a (FetchSettled i (Responded status (Parsed json))) in
  let a2 := step validateImageFile a1 Submit in
  mounted a = true ->
  nth_error (inflight a) i = Some snap ->
  ok status = true ->
  can_submit a1 = true ->
  log (machine a2) =
    log (machine a1) ++
    [PreventDefault; SetError None; SetSuccess None;
     SetError (Some "Please select a district")] /\
  inflight a2 = inflight a1 /\
  timers (machine a2) = timers (machine a1) /\
  timers (machine a1) = timers (machine a) ++ [("/contribution", 2000)] /\
  (image (current a2) = None /\ previewUrl (current a2) = None /\
   treeName (current a2) = "" /\ treeQuantity (current a2) = 1 /\
   selectedDistrict (current a2) = None /\ submitting (current a2) = false) /\
  success (current a1) = Some "Tree contribution submitted successfully!" /\
  success (current a2) = None /\
  error (current a2) = Some "Please select a district".
Proof.
  cbv zeta. intros Mt N Ok C.
  rewrite (submit_step _ C). revert C.
  rewrite (settle_step a i snap _ Mt N). cbv zeta.
  unfold thrown_message. rewrite Ok. intros _.
  unfold current, validation_failure. cbn. repeat split.
Qed.

(** *** The session gate *)

(** The state is the one before the event. *)
Ltac keep_all := split; [|split; [|split]]; assumption.

Lemma turned_away_step (visitor : Session) (a : App) (e : Event) :
  loading visitor = false -> user visitor = None ->
  keeps_session visitor e = true ->
  Turned_away a -> Turned_away (step validateImageFile a e).
Proof.
  intros Lv Uv K (U & L & M & F).
  assert (R : render (session a) (current a) = Nothing).
  { unfold render. rewrite L, U. reflexivity. }
  destruct e as [t|d|v|v|fs| | |fs| |i o| | ];
    unfold step, interactive, can_submit; rewrite ?R, ?andb_false_r;
    try keep_all.
  - simpl in K. unfold same_deps in K. rewrite Lv, Uv in K.
    apply andb_prop in K. destruct K as [K1 K2].
    destruct (mounted a); [|keep_all].
    unfold same_deps. rewrite U, L, K1, K2. cbn [andb].
    unfold Turned_away. cbn [session machine inflight].
    destruct (user t); [discriminate K1|].
    destruct (loading t); [discriminate K2|].
    repeat split; assumption.
  - rewrite F. destruct i; cbn [nth_error]; keep_all.
  - rewrite M. cbn [timers]. keep_all.
  - destruct (mounted a); [|keep_all].
    unfold Turned_away, current. cbn [session machine inflight]. rewrite M.
    repeat split; assumption.
Qed.

Lemma turned_away_run (visitor : Session) (es : list Event) :
  loading visitor = false -> user visitor = None ->
  forallb (keeps_session visitor) es = true ->
  forall a : App, Turned_away a -> Turned_away (run validateImageFile a es).
Proof.
  intros Lv Uv. induction es as [|e es IH]; intros K a T; simpl; [exact T|].
  simpl in K. apply andb_prop in K. destruct K as [K1 K2].
  apply (IH K2). apply (turned_away_step visitor); assumption.
Qed.

Lemma pushes_app (xs ys : list Home.Op) :
  Home.pushes (xs ++ ys) = Home.pushes xs ++ Home.pushes ys.
Proof.
  induction xs as [|x xs IH]; simpl; [reflexivity|].
  destruct x; simpl; rewrite IH; reflexivity.
Qed.

Lemma same_deps_trans (r s t : Session) :
  same_deps r s = true -> same_deps r t = true -> same_deps s t = true.
Proof.
  unfold same_deps, same_user. intros A B.
  apply andb_prop in A. apply andb_prop in B.
  destruct A as [A1 A2], B as [B1 B2].
  apply Bool.eqb_prop in A2, B2. rewrite <- A2, <- B2, Bool.eqb_reflx, andb_true_r.
  destruct (user r), (user s), (user t); try discriminate; try reflexivity.
  apply Nat.eqb_eq in A1, B1. apply Nat.eqb_eq. congruence.
Qed.

Lemma sent_home_nothing (member : Session) (u : User) (b : Home.App) :
  loading member = false -> user member = Some u ->
  same_deps member (Home.session b) = true -> Home.render b = Home.Nothing.
Proof.
  unfold same_deps, same_user, Home.render. intros L U D. rewrite L, U in D.
  apply andb_prop in D. destruct D as [D1 D2].
  destruct (loading (Home.session b)); [discriminate D2|].
  destruct (user (Home.session b)); [reflexivity|discriminate D1].
Qed.

Lemma sent_home_step (member : Session) (u : User) (b : Home.App) (e : Home.Event) :
  loading member = false -> user member = Some u ->
  home_keeps_session member e = true ->
  Sent_home member b -> Sent_home member (Home.step b e).
Proof.
  intros L U K (D & P).
  pose proof (sent_home_nothing member u b L U D) as R.
  destruct e as [t| |]; unfold Home.step; rewrite ?R; try (split; assumption).
  simpl in K. unfold Sent_home. cbn [Home.session Home.log].
  rewrite (same_deps_trans member (Home.session b) t D K). split; assumption.
Qed.

Lemma sent_home_run (member : Session) (u : User) (hs : list Home.Event) :
  loading member = false -> user member = Some u ->
  forallb (home_keeps_session member) hs = true ->
  forall b : Home.App, Sent_home member b -> Sent_home member (Home.run b hs).
Proof.
  intros L U. induction hs as [|e hs IH]; intros K b S; simpl; [exact S|].
  simpl in K. apply andb_prop in K. destruct K as [K1 K2].
  apply (IH K2). apply (sent_home_step member u); assumption.
Qed.

Lemma same_deps_refl (s : Session) : same_deps s s = true.
Proof.
  unfold same_deps, same_user. rewrite Bool.eqb_reflx, andb_true_r.
  destruct (user s); [apply Nat.eqb_refl | reflexivity].
Qed.

(** C7: once the session is resolved, the plant page under a session
    without identity renders nothing and its gate effect navigates to
    the landing page with the [auth_required] marker, when the page
    mounts and whenever the session changes to such a one; the landing
    page under a session with an identity renders nothing and its gate
    effect navigates to the dashboard, and as long as the session stays
    the same that navigation is the only one. *)
Theorem session_gate (visitor member : Session) (u : User)
    (p : PageState) (a : App) (es : list Event)
    (param : option string) (b : Home.App) (hs : list Home.Event) :
  loading visitor = false -> user visitor = None ->
  loading member = false -> user member = Some u ->
  (render visitor p = Nothing /\
   log (machine (mount visitor)) = [RouterPush "/?auth_required=true"] /\
   (mounted a = true -> same_deps (session a) visitor = false ->
    log (machine (step validateImageFile a (AuthChange visitor))) =
      log (machine a) ++ [RouterPush "/?auth_required=true"]) /\
   (forallb (keeps_session visitor) es = true ->
    let a' := run validateImageFile (mount visitor) es in
    log (machine a') = [RouterPush "/?auth_required=true"] /\
    render (session a') (current a') = Nothing)) /\
  ((Home.session b = member -> Home.render b = Home.Nothing) /\
   Home.pushes (Home.log (Home.mount member param)) = ["/dashboard"] /\
   (same_deps (Home.session b) member = false ->
    Home.log (Home.step b (Home.AuthChange member)) =
      Home.log b ++ [Home.RouterPush "/dashboard"]) /\
   (forallb (home_keeps_session member) hs = true ->
    let b' := Home.run (Home.mount member param) hs in
    Home.pushes (Home.log b') = ["/dashboard"] /\
    Home.render b' = Home.Nothing)).
Proof.
  intros Lv Uv Lm Um.
  assert (Mv : machine (mount visitor) =
               {| page := initial_state; log := [RouterPush "/?auth_required=true"];
                  next_handle := O; timers := [] |}).
  { unfold mount, redirectEffect. rewrite Lv, Uv. reflexivity. }
  assert (Pm : Home.pushes (Home.log (Home.mount member param)) = ["/dashboard"]).
  { unfold Home.mount, Home.redirectEffect. rewrite Lm, Um. cbn [negb andb Home.log].
    rewrite pushes_app. cbn [Home.pushes app].
    unfold Home.authModalEffect.
    destruct param as [v|]; [destruct (v =? "true")%string|]; reflexivity. }
  split; [split; [|split; [|split]] | split; [|split; [|split]]].
  - unfold render. rewrite Lv, Uv. reflexivity.
  - rewrite Mv. reflexivity.
  - intros Mt D. unfold step. rewrite Mt, D. cbn [machine].
    unfold redirectEffect. rewrite Lv, Uv. reflexivity.
  - intros K. cbv zeta.
    destruct (turned_away_run visitor es Lv Uv K (mount visitor))
      as (U & L & M & _).
    { repeat split; try assumption. }
    rewrite M. split; [reflexivity|].
    unfold render. rewrite L, U. reflexivity.
  - intros E. unfold Home.render. rewrite E, Lm, Um. reflexivity.
  - exact Pm.
  - intros D. unfold Home.step. rewrite D. cbn [Home.log].
    unfold Home.redirectEffect. rewrite Lm, Um. reflexivity.
  - intros K. cbv zeta.
    destruct (sent_home_run member u hs Lm Um K (Home.mount member param))
      as (D & P).
    { split; [apply same_deps_refl | exact Pm]. }
    split; [exact P|]. exact (sent_home_nothing member u _ Lm Um D).
Qed.

End Submission.

(* ------------------------------------------------------------------ *)
(** ** The properties on examples *)

(** Closed facts about the examples hold by evaluation. *)
Ltac by_evaluation := vm_compute; reflexivity.

(** All fields but the photo are given: the validation pass names the
    missing photo and no request is issued. *)
Lemma validation_pass_witness :
  can_submit no_photo = true /\
  error (current (step caption_policy no_photo Submit)) =
    Some "Please upload a tree photo" /\
  inflight (step caption_policy no_photo Submit) = [].
Proof.
  assert (C : can_submit no_photo = true) by by_evaluation.
  pose proof (validation_pass caption_policy no_photo C) as T.
  vm_compute in T. destruct T as (E & _ & F & _).
  split; [exact C|]. vm_compute. split; [exact E | exact F].
Defined.

(** While the request of the filled-in form is in flight, a submit
    request changes nothing. *)
Lemma single_flight_witness :
  let a := run caption_policy (mount signed_in) (fill_in ++ [Submit]) in
  inflight a <> [] /\ step caption_policy a Submit = a.
Proof.
  cbv zeta.
  assert (N : inflight (run caption_policy (mount signed_in) (fill_in ++ [Submit]))
              <> []) by (vm_compute; discriminate).
  split; [exact N|].
  pose proof (single_flight caption_policy signed_in (fill_in ++ [Submit])) as T.
  cbv zeta in T. exact (proj1 (proj2 (proj2 T)) N).
Defined.

(** A second photo replaces the first one in the filled-in form. *)
Lemma preview_replacement_witness :
  let a := run caption_policy (mount signed_in) fill_in in
  let a' := step caption_policy a (ImageChange [peepal_photo]) in
  interactive a = true /\
  previewUrl (current a) = Some 0%nat /\
  valid (caption_policy peepal_photo) = true /\
  live_handles (machine a) = [0%nat] /\
  live_handles (machine a') = [next_handle (machine a)].
Proof.
  cbv zeta.
  assert (I : interactive (run caption_policy (mount signed_in) fill_in) = true)
    by by_evaluation.
  assert (P : previewUrl (current (run caption_policy (mount signed_in) fill_in))
              = Some 0%nat) by by_evaluation.
  assert (V : valid (caption_policy peepal_photo) = true) by by_evaluation.
  pose proof (preview_replacement caption_policy signed_in fill_in peepal_photo []
                0%nat) as T.
  cbv zeta in T. destruct (T I P V) as (_ & _ & _ & _ & A & B & _).
  exact (conj I (conj P (conj V (conj A B)))).
Defined.

(** The filled-in form passes validation; its request may fail, the
    flag is reset all the same. *)
Lemma submitting_flag_witness :
  let a := run caption_policy (mount signed_in) (fill_in ++ [Submit]) in
  fst (handleSubmit (current filled) (Some asha) (machine filled))
    = Value AwaitingFetch /\
  submitting (current (step caption_policy a
                         (FetchSettled 0 (Rejected "Failed to fetch")))) = false.
Proof.
  cbv zeta.
  assert (A : fst (handleSubmit (current filled) (Some asha) (machine filled))
              = Value AwaitingFetch) by by_evaluation.
  assert (Mt : mounted (run caption_policy (mount signed_in) (fill_in ++ [Submit]))
               = true) by by_evaluation.
  assert (N : nth_error
                (inflight (run caption_policy (mount signed_in) (fill_in ++ [Submit])))
                0 = Some (current filled)) by by_evaluation.
  split; [exact A|].
  exact (proj2 (proj2 (submitting_flag caption_policy (current filled) (Some asha)
                         (machine filled) A))
           _ 0%nat (Rejected "Failed to fetch") Mt N).
Defined.

(** The gate at a signed-out and at a signed-in session. *)
Lemma session_gate_witness :
  loading signed_out = false /\ user signed_out = None /\
  loading signed_in = false /\ user signed_in = Some asha /\
  log (machine (mount signed_out)) = [RouterPush "/?auth_required=true"] /\
  Home.pushes (Home.log (Home.mount signed_in None)) = ["/dashboard"].
Proof.
  do 4 (split; [reflexivity|]).
  destruct (session_gate caption_policy signed_out signed_in asha initial_state
              (mount signed_in) [] None (Home.mount signed_in None) []
              eq_refl eq_refl eq_refl eq_refl)
    as ((_ & A & _) & (_ & B & _)).
  split; [exact A | exact B].
Defined.

(** The request of the filled-in form is answered with status 200 and
    an empty JSON object. *)
Lemma success_clears_draft_witness :
  let a := run caption_policy (mount signed_in) (fill_in ++ [Submit]) in
  let a' := step caption_policy a
              (FetchSettled 0 (Responded 200 (Parsed (JObj [])))) in
  mounted a = true /\
  nth_error (inflight a) 0 = Some (current filled) /\
  ok 200 = true /\
  image (current a') = None /\
  live_handles (machine a') = [] /\
  timers (machine a') = timers (machine a) ++ [("/contribution", 2000)].
Proof.
  cbv zeta.
  assert (Mt : mounted (run caption_policy (mount signed_in) (fill_in ++ [Submit]))
               = true) by by_evaluation.
  assert (N : nth_error
                (inflight (run caption_policy (mount signed_in) (fill_in ++ [Submit])))
                0 = Some (current filled)) by by_evaluation.
  assert (K : ok 200 = true) by by_evaluation.
  pose proof (success_clears_draft caption_policy signed_in (fill_in ++ [Submit])
                0%nat (current filled) 200 (JObj [])) as T.
  cbv zeta in T.
  destruct (T Mt N K) as (A & _ & _ & _ & _ & _ & _ & _ & Tm & L & _).
  exact (conj Mt (conj N (conj K (conj A (conj L Tm))))).
Defined.

(** The request of the filled-in form is answered with status 400 and
    the body [{"error":"district required"}]. *)
Lemma failure_keeps_draft_witness :
  let a := run caption_policy (mount signed_in) (fill_in ++ [Submit]) in
  let a' := step caption_policy a
              (FetchSettled 0 (Responded 400 district_required)) in
  mounted a = true /\
  nth_error (inflight a) 0 = Some (current filled) /\
  ok 400 = false /\
  error (current a') = Some "district required" /\
  image (current a') = image (current a) /\
  submitting (current a') = false.
Proof.
  cbv zeta.
  assert (Mt : mounted (run caption_policy (mount signed_in) (fill_in ++ [Submit]))
               = true) by by_evaluation.
  assert (N : nth_error
                (inflight (run caption_policy (mount signed_in) (fill_in ++ [Submit])))
                0 = Some (current filled)) by by_evaluation.
  assert (K : ok 400 = false) by by_evaluation.
  pose proof (failure_keeps_draft caption_policy signed_in (fill_in ++ [Submit])
                0%nat (current filled) 400 district_required) as T.
  cbv zeta in T.
  destruct (T Mt N K) as ((_ & I & _) & S & _ & _ & E & _).
  assert (Ne : "district required" <> "") by discriminate.
  exact (conj Mt (conj N (conj K
           (conj (E [("error", JStr "district required")] "district required"
                    eq_refl eq_refl Ne)
              (conj I S))))).
Defined.

(** A second submit request after the success of the filled-in form. *)
Lemma resubmit_after_success_witness :
  let a := run caption_policy (mount signed_in) (fill_in ++ [Submit]) in
  let a1 := step caption_policy a
              (FetchSettled 0 (Responded 200 (Parsed (JObj [])))) in
  let a2 := step caption_policy a1 Submit in
  mounted a = true /\
  nth_error (inflight a) 0 = Some (current filled) /\
  ok 200 = true /\
  can_submit a1 = true /\
  inflight a2 = inflight a1 /\
  error (current a2) = Some "Please select a district".
Proof.
  cbv zeta.
  assert (Mt : mounted (run caption_policy (mount signed_in) (fill_in ++ [Submit]))
               = true) by by_evaluation.
  assert (N : nth_error
                (inflight (run caption_policy (mount signed_in) (fill_in ++ [Submit])))
                0 = Some (current filled)) by by_evaluation.
  assert (K : ok 200 = true) by by_evaluation.
  assert (C : can_submit
                (step caption_policy
                   (run caption_policy (mount signed_in) (fill_in ++ [Submit]))
                   (FetchSettled 0 (Responded 200 (Parsed (JObj []))))) = true)
    by by_evaluation.
  pose proof (resubmit_after_success caption_policy
                (run caption_policy (mount signed_in) (fill_in ++ [Submit]))
                0%nat (current filled) 200 (JObj [])) as T.
  cbv zeta in T.
  destruct (T Mt N K C) as (_ & F & _ & _ & _ & _ & _ & E).
  exact (conj Mt (conj N (conj K (conj C (conj F E))))).
Defined.

(** C1 as stated fails: status 204 is a 2xx status, the body is empty,
    [res.json()] rejects, and the draft stays as it was, no success is
    shown and no navigation is scheduled. *)
Lemma success_status_without_json :
  let a' := step caption_policy submitted (FetchSettled 0 (Responded 204 empty_body)) in
  ok 204 = true /\
  image (current a') = Some neem_photo /\
  treeName (current a') = " Neem " /\
  treeQuantity (current a') = 3 /\
  selectedDistrict (current a') = Some pune /\
  previewUrl (current a') = Some 0%nat /\
  live_handles (machine a') = [0%nat] /\
  success (current a') = None /\
  error (current a') = Some "Unexpected end of JSON input" /\
  timers (machine a') = [].
Proof. vm_compute. repeat split. Qed.

(** C2 as stated fails: status 500 with a body that is no JSON; the body
    has no [error] field, yet the message shown is the one of the parse
    error, not the generic one. *)
Lemma failure_status_without_json :
  let a' := step caption_policy submitted (FetchSettled 0 (Responded 500 html_body)) in
  ok 500 = false /\
  error (current a') = Some "Unexpected token < in JSON at position 0" /\
  error (current a') <> Some "Failed to submit contribution".
Proof. vm_compute. repeat split. discriminate. Qed.

(** Members that are no strings, under status 422: an empty array is
    truthy and converts to the empty string, so the generic message is
    shown; an object with a member named [toString] cannot be converted,
    and the message of that error is shown; an array of numbers is shown
    joined. *)
Example failure_members :
  let banner json :=
    error (current (step caption_policy submitted
                      (FetchSettled 0 (Responded 422 (Parsed json))))) in
  banner (JObj [("error", JArr [])]) = Some "Failed to submit contribution" /\
  banner (JObj [("error", JObj [("toString", JNum "1")])]) =
    Some "Cannot convert object to primitive value" /\
  banner (JObj [("error", JArr [JObj [("toString", JNull)]])]) =
    Some "Cannot convert object to primitive value" /\
  banner (JObj [("error", JObj [("code", JNum "7")])]) = Some "[object Object]" /\
  banner (JObj [("error", JArr [JNum "1"; JNull; JNum "2"])]) = Some "1,,2".
Proof. vm_compute. repeat split. Qed.

(** C9 as stated fails: the second submit request changes both banners. *)
Lemma resubmit_changes_banners :
  let a1 := step caption_policy submitted
              (FetchSettled 0 (Responded 200 (Parsed (JObj [])))) in
  let a2 := step caption_policy a1 Submit in
  timers (machine a1) = [("/contribution", 2000)] /\
  render (session a1) (current a1) <> render (session a2) (current a2) /\
  success_banner (form_view (current a1)) =
    Some "Tree contribution submitted successfully!" /\
  success_banner (form_view (current a2)) = None /\
  error_banner (form_view (current a1)) = None /\
  error_banner (form_view (current a2)) = Some "Please select a district".
Proof. vm_compute. repeat split. discriminate. Qed.

(** The component is torn down while its request is in flight. *)
Example teardown_in_flight :
  live_handles (machine submitted) = [0%nat] /\
  inflight submitted = [current filled] /\
  log (machine (step caption_policy submitted Unmount)) =
    log (machine submitted) ++ [RevokeImagePreview 0%nat] /\
  live_handles (machine (step caption_policy submitted Unmount)) = [].
Proof. vm_compute. repeat split. Qed.

(** A photo is replaced while the request is in flight: the rest of
    [handleSubmit] releases the handle of its own render, the commit the
    one of the photo selected since. *)
Example stale_snapshot :
  let a := run caption_policy submitted
             [ImageChange [peepal_photo];
              FetchSettled 0 (Responded 200 (Parsed (JObj [])))] in
  skipn 21 (log (machine a)) =
    [SetSuccess (Some "Tree contribution submitted successfully!"); SetImage None;
     RevokeImagePreview 0%nat; SetPreviewUrl None; SetTreeName "";
     SetTreeQuantity 1; SetSelectedDistrict None;
     SetTimeout "/contribution" 2000; SetSubmitting false;
     RevokeImagePreview 1%nat] /\
  live_handles (machine a) = [].
Proof. vm_compute. split; reflexivity. Qed.

(* ------------------------------------------------------------------ *)
(** ** Further properties *)

(** *** Numbers and their decimal text *)

Lemma parse_digits_acc (d : Decimal.uint) :
  forall p : positive,
    parse_digits 10 (NilEmpty.string_of_uint d) (Some (Z.pos p)) =
    Some (Z.pos (Pos.of_uint_acc d p)).
Proof.
  induction d; intros p; cbn [NilEmpty.string_of_uint parse_digits Pos.of_uint_acc];
    try reflexivity;
    match goal with
    | |- context [digit_value 10 ?c] =>
        let v := eval vm_compute in (digit_value 10 c) in
        change (digit_value 10 c) with v
    end;
    cbv beta iota; rewrite <- IHd; f_equal; f_equal; lia.
Qed.

Lemma parse_digits_zero (d : Decimal.uint) :
  parse_digits 10 (NilEmpty.string_of_uint d) (Some 0) =
  Some (Z.of_N (Pos.of_uint d)).
Proof.
  induction d; cbn [NilEmpty.string_of_uint parse_digits Pos.of_uint];
    try reflexivity;
    match goal with
    | |- context [digit_value 10 ?c] =>
        let v := eval vm_compute in (digit_value 10 c) in
        change (digit_value 10 c) with v
    end;
    cbv beta iota; try exact IHd;
    cbn [Z.of_N]; rewrite <- parse_digits_acc; reflexivity.
Qed.

Lemma parse_digits_start (d : Decimal.uint) :
  d <> Decimal.Nil ->
  parse_digits 10 (NilEmpty.string_of_uint d) None =
  parse_digits 10 (NilEmpty.string_of_uint d) (Some 0).
Proof. destruct d; intros N; [contradiction|..]; reflexivity. Qed.

(** [parseInt] reads a run of decimal digits as such: there is no white
    space to skip, no sign, and no [0x] prefix. *)
Lemma parseInt_digits (d : Decimal.uint) :
  d <> Decimal.Nil ->
  parseInt (NilEmpty.string_of_uint d) =
  match parse_digits 10 (NilEmpty.string_of_uint d) None with
  | Some n => Some (1 * n)
  | None => None
  end.
Proof.
  intros N. destruct d as [|d|d|d|d|d|d|d|d|d|d]; [contradiction|..];
    destruct d; reflexivity.
Qed.

Lemma parseInt_minus_digits (d : Decimal.uint) :
  d <> Decimal.Nil ->
  parseInt (String "-" (NilEmpty.string_of_uint d)) =
  match parse_digits 10 (NilEmpty.string_of_uint d) None with
  | Some n => Some (-1 * n)
  | None => None
  end.
Proof.
  intros N. destruct d as [|d|d|d|d|d|d|d|d|d|d]; [contradiction|..];
    destruct d; reflexivity.
Qed.

Lemma string_of_uint_nonnil (d : Decimal.uint) :
  d <> Decimal.Nil -> NilZero.string_of_uint d = NilEmpty.string_of_uint d.
Proof. destruct d; intros N; [contradiction|..]; reflexivity. Qed.

(** *** Trimming twice *)

Lemma trimEnd_idem (s : string) : trimEnd (trimEnd s) = trimEnd s.
Proof.
  induction s as [|c r IH]; [reflexivity|].
  cbn [trimEnd]. destruct (trimEnd r) as [|c' r'] eqn:E.
  - destruct (is_whitespace c) eqn:W; [reflexivity|].
    cbn [trimEnd]. rewrite W. reflexivity.
  - cbn [trimEnd] in *. rewrite IH. reflexivity.
Qed.

Lemma trimEnd_head (c : ascii) (r : string) :
  is_whitespace c = false ->
  exists r', trimEnd (String c r) = String c r'.
Proof.
  intros W. cbn [trimEnd]. destruct (trimEnd r); [rewrite W|]; eexists; reflexivity.
Qed.

Lemma trim_idem (s : string) : trim (trim s) = trim s.
Proof.
  unfold trim. destruct (blank s) eqn:B.
  - rewrite (trimStart_blank s B). reflexivity.
  - destruct (trimStart_not_blank s B) as (c & r & E & W). rewrite E.
    destruct (trimEnd_head c r W) as (r' & E'). rewrite E'.
    cbn [trimStart]. rewrite W, <- E'. apply trimEnd_idem.
Qed.

(** *** The payload *)

Lemma payload_well_formed (district : DistrictSearchResult) (img : File)
    (snap : PageState) (u : option User) :
  validation_failure snap = None ->
  well_formed (build_formData district img snap u).
Proof.
  unfold validation_failure. intros V.
  destruct (selectedDistrict snap); [|discriminate V].
  destruct (image snap); [|discriminate V].
  destruct (blank (treeName snap)) eqn:B; [discriminate V|].
  destruct (treeQuantity snap <? 1) eqn:Q; [discriminate V|].
  apply Z.ltb_ge in Q.
  assert (T : trim (treeName snap) <> "").
  { intros E. pose proof (trim_truthy (treeName snap)) as H.
    rewrite E, B in H. discriminate H. }
  unfold well_formed, build_formData, append, append_if_present.
  destruct (user_field uid u) as [[|? ?]|], (user_field displayName u) as [[|? ?]|],
    (user_field email u) as [[|? ?]|]; cbn;
    (split; [exists (trim (treeName snap)); repeat split;
               [exact T | apply trim_idem]
            |split; [exists (treeQuantity snap); split; [reflexivity | exact Q]
            |split; [exists img; reflexivity
                    |exists district; repeat split]]]).
Qed.

(** *** The books of the component *)

Lemma count_app (p : Op -> bool) (xs ys : list Op) :
  count p (xs ++ ys) = (count p xs + count p ys)%nat.
Proof. unfold count. rewrite filter_app, length_app. reflexivity. Qed.

(** Unfold the dispatch of an event down to the fields of the state. *)
Ltac unfold_step :=
  cbv [dispatch commit exec with_machine with_page current previewCleanup
       handleDistrictSelect handleQuantityChange handleTreeNameChange
       handleImageChange handleDragOver handleDragLeave handleDrop
       redirectEffect revoke_if_present perform bind ret fst snd
       preventDefault setIsDragging setTreeQuantity
       setTreeName setSelectedDistrict setError
       revokeImagePreview routerPush
       with_image with_previewUrl with_isDragging with_treeQuantity with_treeName
       with_selectedDistrict with_error with_success with_submitting cleared
       page log next_handle timers machine mounted session inflight
       image previewUrl isDragging treeQuantity treeName selectedDistrict
       error success submitting same_handle].

Ltac expected_ops :=
  repeat first
    [ apply Forall_nil
    | apply Forall_cons; [ cbn [op_expected]; auto | ] ].

Ltac balance HA HB HC HD HE :=
  unfold Account_inv, current; cbn [machine page log timers inflight];
  rewrite <- ?app_assoc; cbn [app];
  rewrite ?count_app, ?length_app;
  split; [ first [ exact HA | exact I ]
  | split; [ first [ exact HB
                   | apply Forall_app; split; [exact HB | repeat constructor] ]
  | split; [ first [ exact HC
                   | apply Forall_app; split; [exact HC | expected_ops] ]
  | split; [ cbn; lia | cbn; lia ] ] ] ].

Section Further.
Variable validateImageFile : File -> Validation.

(** Every event keeps the books balanced. *)
Lemma step_account (a : App) (e : Event) :
  Account_inv a -> Account_inv (step validateImageFile a e).
Proof.
  intros HI. pose proof HI as (HA & HB & HC & HD & HE).
  destruct a as [mt ss [p lg nh tm] fl].
  destruct p as [im pv dr tq tn sd er su sb].
  unfold current, paired in HA. cbn [machine page log timers inflight image previewUrl] in *.
  destruct e as [t|d|v|v|fs| | |fs| |i o| | ]; unfold Plant.step;
    try (destruct (interactive _) eqn:I; [|exact HI];
         destruct mt; [|discriminate I]).
  - (* AuthChange *)
    destruct mt; [|exact HI]. simpl mounted. cbv iota.
    destruct (same_deps _ t).
    + balance HA HB HC HD HE.
    + unfold redirectEffect. destruct (loading t), (user t); unfold_step; simpl;
        balance HA HB HC HD HE.
  - unfold_step. destruct pv; rewrite ?Nat.eqb_refl; balance HA HB HC HD HE.
  - unfold_step. destruct pv; rewrite ?Nat.eqb_refl; balance HA HB HC HD HE.
  - unfold_step. destruct pv; rewrite ?Nat.eqb_refl; balance HA HB HC HD HE.
  - (* ImageChange *)
    destruct fs as [|f rest].
    + unfold_step. destruct pv; rewrite ?Nat.eqb_refl; balance HA HB HC HD HE.
    + unfold dispatch, exec, handleImageChange, current. simpl machine. simpl page.
      destruct (valid (validateImageFile f)) eqn:V.
      * rewrite (handleImageFile_valid validateImageFile _ _ _ V). unfold_step.
        destruct pv as [h|]; [destruct (Nat.eqb h nh)|]; cbn [revokes];
          balance HA HB HC HD HE.
      * rewrite (handleImageFile_invalid validateImageFile _ _ _ V). unfold_step.
        destruct pv; rewrite ?Nat.eqb_refl; balance HA HB HC HD HE.
  - unfold_step. destruct pv; rewrite ?Nat.eqb_refl; balance HA HB HC HD HE.
  - unfold_step. destruct pv; rewrite ?Nat.eqb_refl; balance HA HB HC HD HE.
  - (* Drop *)
    destruct fs as [|f rest].
    + unfold_step. destruct pv; rewrite ?Nat.eqb_refl; balance HA HB HC HD HE.
    + unfold dispatch, exec, handleDrop, current, bind, preventDefault,
        setIsDragging, perform.
      simpl machine. simpl page.
      destruct (valid (validateImageFile f)) eqn:V.
      * rewrite (handleImageFile_valid validateImageFile _ _ _ V). unfold_step.
        destruct pv as [h|]; [destruct (Nat.eqb h nh)|]; cbn [revokes];
          balance HA HB HC HD HE.
      * rewrite (handleImageFile_invalid validateImageFile _ _ _ V). unfold_step.
        destruct pv; rewrite ?Nat.eqb_refl; balance HA HB HC HD HE.
  - (* Submit *)
    destruct (can_submit _) eqn:I; [|exact HI].
    unfold dispatch, exec, current. cbn [machine page session].
    destruct (validation_failure
                {| image := im; previewUrl := pv; isDragging := dr;
                   treeQuantity := tq; treeName := tn; selectedDistrict := sd;
                   error := er; success := su; submitting := sb |})
      as [msg|] eqn:V.
    + rewrite (handleSubmit_rejects _ _ _ _ V). unfold_step.
      destruct pv; rewrite ?Nat.eqb_refl; balance HA HB HC HD HE.
    + destruct (handleSubmit_issues _ (user ss)
                  {| page := {| image := im; previewUrl := pv; isDragging := dr;
                                treeQuantity := tq; treeName := tn;
                                selectedDistrict := sd; error := er;
                                success := su; submitting := sb |};
                     log := lg; next_handle := nh; timers := tm |} V)
        as (d & img & _ & _ & E).
      rewrite E. clear E.
      pose proof (payload_well_formed d img _ (user ss) V) as W.
      unfold_step.
      destruct pv; rewrite ?Nat.eqb_refl; balance HA HB HC HD HE.
  - (* FetchSettled *)
    destruct (nth_error _ i) as [snap|] eqn:N; [|exact HI].
    assert (L : length fl = S (length (remove_nth i fl))).
    { clear - N. revert i N. induction fl as [|x fl IH]; intros [|i] N;
        try discriminate N; [reflexivity|]. simpl. f_equal. exact (IH i N). }
    unfold exec. rewrite handleSubmit_resume_run.
    destruct (thrown_message o) as [msg|]; destruct mt; unfold_step;
      destruct pv as [h|]; rewrite ?Nat.eqb_refl;
      try destruct snap as [? [k|] ? ? ? ? ? ? ?]; cbn [revokes];
      balance HA HB HC HD HE.
  - (* TimerFired *)
    destruct tm as [|[path ms] rest]; [exact HI|].
    inversion HB as [|? ? Ht HB']; subst. injection Ht as -> ->.
    cbn [length] in HD. unfold_step. balance HA HB' HC HD HE.
  - (* Unmount *)
    destruct mt; [|exact HI]. unfold_step. destruct pv; balance HA HB HC HD HE.
Qed.

Lemma mount_account (s : Session) : Account_inv (mount s).
Proof.
  unfold Account_inv, mount, redirectEffect, current, paired, count.
  destruct (loading s), (user s); cbn;
    (repeat split; try constructor; cbn [op_expected]; auto).
Qed.

Lemma run_account (es : list Event) :
  forall a : App, Account_inv a -> Account_inv (run validateImageFile a es).
Proof.
  induction es as [|e es IH]; intros a H; simpl; [exact H|].
  apply IH, step_account, H.
Qed.

Lemma reachable_account (s : Session) (es : list Event) :
  Account_inv (run validateImageFile (mount s) es).
Proof. apply run_account, mount_account. Qed.

(** *** Photo and preview *)

(** X7: in every state the component reaches, a photo is stored exactly
    when a preview handle is, and while the component is mounted a
    preview handle is live exactly when a photo is stored. *)
Theorem photo_and_preview (s : Session) (es : list Event) :
  let a := run validateImageFile (mount s) es in
  (image (current a) = None <-> previewUrl (current a) = None) /\
  (if mounted a
   then live_handles (machine a) = [] <-> image (current a) = None
   else live_handles (machine a) = []).
Proof.
  cbv zeta.
  destruct (reachable_account s es) as (P & _).
  destruct (reachable_inv validateImageFile s es) as ((L & _) & _).
  set (a := run validateImageFile (mount s) es) in *.
  unfold paired in P. rewrite L. unfold preview_slot.
  destruct (image (current a)), (previewUrl (current a)), (mounted a);
    try contradiction; repeat split; intros; try discriminate; reflexivity.
Qed.

(** *** Navigations and requests *)

(** X10: in every state the component reaches, it has navigated only to
    the landing page with the [auth_required] marker or to
    [/contribution]; every timer waits 2000 ms to go to [/contribution];
    and every timer set so far is still pending or has fired once. *)
Theorem navigation_accounts (s : Session) (es : list Event) :
  let a := run validateImageFile (mount s) es in
  Forall (fun op => match op with
                    | RouterPush path =>
                        path = "/?auth_required=true" \/ path = "/contribution"
                    | _ => True
                    end) (log (machine a)) /\
  Forall (fun t => t = ("/contribution", 2000)) (timers (machine a)) /\
  (count (is_push_to "/contribution") (log (machine a)) +
   length (timers (machine a)) = count is_setTimeout (log (machine a)))%nat.
Proof.
  cbv zeta. destruct (reachable_account s es) as (_ & T & E & N & _).
  split; [|split; assumption].
  eapply Forall_impl; [|exact E].
  intros [] H; try exact I. exact H.
Qed.

(** X3: every request the component has issued, in any state it reaches,
    is a POST to [/api/plant] whose payload carries a tree name that is
    not empty and has no white space at either end, the text that
    [toString] prints for a quantity of at least 1, the photo and the
    district. *)
Theorem requests_well_formed (s : Session) (es : list Event)
    (url method : string) (body : FormData) :
  In (Fetch url method body) (log (machine (run validateImageFile (mount s) es))) ->
  url = "/api/plant" /\ method = "POST" /\ well_formed body.
Proof.
  intros H. destruct (reachable_account s es) as (_ & _ & E & _).
  rewrite Forall_forall in E. exact (E _ H).
Qed.

(** X11: in every state the component reaches, the requests issued are
    as many as the requests in flight and the runs of the [finally] block
    together: none is lost and none is settled twice. *)
Theorem request_accounts (s : Session) (es : list Event) :
  let a := run validateImageFile (mount s) es in
  (count is_fetch (log (machine a)) =
   length (inflight a) + count is_flag_reset (log (machine a)))%nat /\
  (count is_fetch (log (machine a)) <=
   1 + count is_flag_reset (log (machine a)))%nat.
Proof.
  cbv zeta. destruct (reachable_account s es) as (_ & _ & _ & _ & R).
  destruct (reachable_inv validateImageFile s es) as (_ & (F & _) & _).
  split; [exact R | lia].
Qed.

(** X12: in every state the component reaches, the quantity check of
    the validation pass cannot fail: a submit request never shows
    "Please enter a valid number of trees". *)
Theorem quantity_check_never_fails (s : Session) (es : list Event) :
  let a := run validateImageFile (mount s) es in
  validation_failure (current a) <> Some "Please enter a valid number of trees" /\
  (can_submit a = true ->
   error (current (step validateImageFile a Submit)) <>
     Some "Please enter a valid number of trees").
Proof.
  cbv zeta.
  destruct (reachable_inv validateImageFile s es) as (_ & _ & Q).
  set (a := run validateImageFile (mount s) es) in *.
  assert (V : validation_failure (current a) <>
              Some "Please enter a valid number of trees").
  { unfold validation_failure.
    destruct (selectedDistrict (current a)); [|discriminate].
    destruct (image (current a)); [|discriminate].
    destruct (blank (treeName (current a))); [discriminate|].
    destruct (Z.ltb_spec (treeQuantity (current a)) 1); [lia|discriminate]. }
  split; [exact V|].
  intros C. rewrite (submit_step validateImageFile a C). cbv zeta.
  destruct (validation_failure (current a)) as [message|] eqn:E.
  - unfold current. cbn. intros H. apply V. exact H.
  - unfold validation_failure in E.
    destruct (selectedDistrict (current a)); [|discriminate E].
    destruct (image (current a)); [|discriminate E].
    unfold current. cbn. discriminate.
Qed.

(** *** The quantity and its text *)

(** A double below 2^53 is every integer there. *)
Lemma nearest_double_exact (x : Z) :
  0 <= x < 2 ^ 53 -> nearest_double x = Some x.
Proof.
  intros [L U]. unfold nearest_double.
  assert (B : (Z.log2 x + 1 <=? 53) = true).
  { apply Z.leb_le. destruct (Z.eq_dec x 0) as [->|N]; [vm_compute; discriminate|].
    assert (Z.log2 x < 53) by (apply Z.log2_lt_pow2; lia). lia. }
  cbv zeta. rewrite B. reflexivity.
Qed.

(** Rounding does not go below 2^53 from above it. *)
Lemma nearest_double_large (n y : Z) :
  2 ^ 53 <= n -> nearest_double n = Some y -> 2 ^ 53 <= y.
Proof.
  intros L. unfold nearest_double. cbv zeta.
  destruct (Z.leb_spec (Z.log2 n + 1) 53) as [B|B].
  - intros E. injection E as <-. exact L.
  - set (e := Z.log2 n + 1 - 53).
    assert (E0 : 0 < e) by (unfold e; lia).
    assert (Pn : 0 < n) by lia.
    pose proof (Z.log2_spec n Pn) as [S1 S2].
    assert (Q : 2 ^ 52 <= Z.shiftr n e).
    { rewrite Z.shiftr_div_pow2 by lia.
      apply Z.div_le_lower_bound; [apply Z.pow_pos_nonneg; lia|].
      rewrite <- Z.pow_add_r by lia.
      replace (e + 52) with (Z.log2 n) by (unfold e; lia). exact S1. }
    set (q := Z.shiftr n e) in *.
    match goal with
    | |- context [if ?c then q + 1 else q] =>
        set (q' := if c then q + 1 else q);
        assert (Q' : q <= q') by (unfold q'; destruct c; lia)
    end.
    destruct (Z.shiftl 1 1024 <=? Z.shiftl q' e); [discriminate|].
    intros E. injection E as <-.
    rewrite Z.shiftl_mul_pow2 by lia.
    assert (P2 : 2 <= 2 ^ e).
    { change 2 with (2 ^ 1) at 1. apply Z.pow_le_mono_r; lia. }
    change (2 ^ 53) with (2 ^ 52 * 2).
    apply Z.mul_le_mono_nonneg; lia.
Qed.

(** Below 2^53 no numeral with fewer digits reads as the integer. *)
Lemma shortest_exact (p : nat) (x : Z) :
  0 < x < 2 ^ 53 -> shortest p x = x.
Proof.
  intros [L U]. induction p as [|p IH]; [reflexivity|].
  cbn [shortest]. cbv zeta.
  set (m := 10 ^ Z.of_nat (S p)).
  assert (M : 1 < m).
  { unfold m. change 1 with (10 ^ 0). apply Z.pow_lt_mono_r; lia. }
  set (lo := x / m * m).
  assert (Lo : 0 <= lo <= x /\ x < lo + m).
  { unfold lo. pose proof (Z.div_mod x m ltac:(lia)) as D.
    pose proof (Z.mod_pos_bound x m ltac:(lia)) as R.
    assert (0 <= x / m) by (apply Z.div_pos; lia). nia. }
  assert (H : reads_as (lo + m) x = false).
  { unfold reads_as. destruct (nearest_double (lo + m)) as [y|] eqn:E; [|reflexivity].
    apply Z.eqb_neq. intros ->.
    destruct (Z.lt_ge_cases (lo + m) (2 ^ 53)) as [S|S].
    - rewrite nearest_double_exact in E by lia. injection E as E. lia.
    - pose proof (nearest_double_large _ _ S E). lia. }
  rewrite H.
  destruct (reads_as lo x) eqn:R; [|exact IH].
  unfold reads_as in R. rewrite nearest_double_exact in R by lia.
  apply Z.eqb_eq in R. exact R.
Qed.

Lemma double_toString_exact (x : Z) :
  0 < x <= 2 ^ 53 -> double_toString x = decimal x.
Proof.
  intros [L U]. destruct (Z.eq_dec x (2 ^ 53)) as [->|N].
  - vm_compute. reflexivity.
  - unfold double_toString. cbv zeta. rewrite shortest_exact by lia.
    assert (B : (x <? 10 ^ 21) = true).
    { apply Z.ltb_lt. assert (2 ^ 53 < 10 ^ 21) by (vm_compute; reflexivity). lia. }
    rewrite B. reflexivity.
Qed.

Lemma nearest_double_safe (x : Z) :
  0 <= x <= 2 ^ 53 -> nearest_double x = Some x.
Proof.
  intros [L U]. destruct (Z.eq_dec x (2 ^ 53)) as [->|N].
  - vm_compute. reflexivity.
  - apply nearest_double_exact. lia.
Qed.

(** Up to 2^53 the text of an integer is its decimal numeral. *)
Lemma number_toString_safe (n : Z) :
  Z.abs n <= 2 ^ 53 -> number_toString n = decimal n.
Proof.
  intros B. unfold number_toString.
  destruct n as [|p|p].
  - reflexivity.
  - cbn [Z.eqb Z.ltb Z.compare Z.abs] in *.
    rewrite nearest_double_safe by lia.
    rewrite double_toString_exact by lia. reflexivity.
  - cbn [Z.eqb Z.ltb Z.compare Z.abs] in *.
    rewrite nearest_double_safe by lia.
    rewrite double_toString_exact by lia. reflexivity.
Qed.

(** X1: the text that [toString] gives for an integer of magnitude at
    most 2^53, which is what [handleSubmit] sends and what the quantity
    input displays for it, is read back by [parseInt] as that integer; so
    the quantity input, given the text of a quantity between 1 and 2^53,
    stores that quantity. *)
Theorem quantity_text_round_trip (n : Z) (a : App) :
  Z.abs n <= 2 ^ 53 ->
  parseInt (number_toString n) = Some n /\
  (interactive a = true -> 1 <= n ->
   treeQuantity
     (current (step validateImageFile a (QuantityChange (number_toString n)))) = n).
Proof.
  intros B.
  assert (R : parseInt (number_toString n) = Some n).
  { rewrite (number_toString_safe n B). unfold decimal.
    destruct n as [|p|p]; cbn [Z.to_int NilZero.string_of_int].
    - reflexivity.
    - pose proof (Unsigned.to_uint_nonnil p) as N.
      rewrite (string_of_uint_nonnil _ N), (parseInt_digits _ N),
        (parse_digits_start _ N), parse_digits_zero, Unsigned.of_to.
      reflexivity.
    - pose proof (Unsigned.to_uint_nonnil p) as N.
      rewrite (string_of_uint_nonnil _ N), (parseInt_minus_digits _ N),
        (parse_digits_start _ N), parse_digits_zero, Unsigned.of_to.
      reflexivity. }
  split; [exact R|].
  intros I Q. unfold step. rewrite I.
  unfold dispatch, commit, exec, handleQuantityChange, setTreeQuantity, perform,
    current, with_machine.
  cbn [snd page machine with_treeQuantity previewUrl treeQuantity].
  rewrite same_handle_refl. cbn [page machine treeQuantity].
  rewrite R. unfold or_number, with_treeQuantity. cbn [treeQuantity].
  destruct (Z.eqb_spec n 0); lia.
Qed.

(** X2: the payload names no field twice; it carries the district
    fields, the trimmed tree name, the quantity as [toString] prints it
    and the photo; and it carries the id, the name and the e-mail address
    of the visitor exactly when they are non-empty strings. *)
Theorem payload_fields (district : DistrictSearchResult) (img : File)
    (snap : PageState) (u : option User) :
  let fd := build_formData district img snap u in
  NoDup (map fst fd) /\
  formData_get "districtId" fd = Some (Text (id district)) /\
  formData_get "districtName" fd = Some (Text (name district)) /\
  formData_get "state" fd = Some (Text (state district)) /\
  formData_get "treeName" fd = Some (Text (trim (treeName snap))) /\
  formData_get "treeQuantity" fd =
    Some (Text (number_toString (treeQuantity snap))) /\
  formData_get "image" fd = Some (Blob img) /\
  formData_get "userId" fd = sent_if_present (user_field uid u) /\
  formData_get "userName" fd = sent_if_present (user_field displayName u) /\
  formData_get "userEmail" fd = sent_if_present (user_field email u).
Proof.
  cbv zeta. unfold build_formData, append, append_if_present, sent_if_present.
  destruct (user_field uid u) as [[|? ?]|], (user_field displayName u) as [[|? ?]|],
    (user_field email u) as [[|? ?]|]; cbn;
    (split; [repeat constructor; cbn; intuition discriminate | repeat split]).
Qed.

(** *** Files that are turned down, and no files at all *)

(** X4: a file that the validation turns down changes nothing but the
    error banner, which shows the reason given or, when none is given,
    "Invalid image file": the photo, the preview, the live handles and
    the success banner stay as they are, through the picker and through
    a drop. *)
Theorem invalid_file_keeps_draft (a : App) (f : File) (rest : list File) :
  interactive a = true ->
  valid (validateImageFile f) = false ->
  let shown := or_string (validation_error (validateImageFile f))
                 "Invalid image file" in
  let picked := step validateImageFile a (ImageChange (f :: rest)) in
  let dropped := step validateImageFile a (Drop (f :: rest)) in
  current picked = with_error (Some shown) (current a) /\
  log (machine picked) = log (machine a) ++ [SetError (Some shown)] /\
  live_handles (machine picked) = live_handles (machine a) /\
  next_handle (machine picked) = next_handle (machine a) /\
  current dropped = with_error (Some shown) (with_isDragging false (current a)) /\
  live_handles (machine dropped) = live_handles (machine a) /\
  next_handle (machine dropped) = next_handle (machine a).
Proof.
  intros I V. cbv zeta. unfold step. rewrite I.
  destruct a as [mt ss [p lg nh tm] fl].
  destruct p as [im pv dr tq tn sd er su sb].
  unfold dispatch, exec, handleImageChange, handleDrop, current, bind,
    preventDefault, setIsDragging, perform.
  cbn [machine page].
  rewrite !(handleImageFile_invalid validateImageFile _ _ _ V).
  unfold live_handles. unfold_step. destruct pv; rewrite ?Nat.eqb_refl;
    cbn [log next_handle page]; rewrite <- ?app_assoc, !live_after_app;
    repeat split.
Qed.

(** X5: a change event of the picker without a file changes nothing at
    all; a drop without a file only ends the dragging state; neither
    reports an error. *)
Theorem no_file_no_change (a : App) :
  step validateImageFile a (ImageChange []) = a /\
  (interactive a = true ->
   let dropped := step validateImageFile a (Drop []) in
   current dropped = with_isDragging false (current a) /\
   log (machine dropped) = log (machine a) ++ [PreventDefault; SetIsDragging false] /\
   inflight dropped = inflight a).
Proof.
  destruct a as [mt ss [p lg nh tm] fl].
  destruct p as [im pv dr tq tn sd er su sb].
  split.
  - unfold step. destruct (interactive _); [|reflexivity].
    unfold_step. destruct pv; rewrite ?Nat.eqb_refl; reflexivity.
  - intros I. cbv zeta. unfold step. rewrite I.
    unfold_step. destruct pv; rewrite ?Nat.eqb_refl; cbn; rewrite <- app_assoc;
      repeat split.
Qed.

(** X6: dropping files on the drop zone leaves the component as picking
    the same files does, but for the dragging state, which the drop
    ends. *)
Theorem drop_like_pick (a : App) (fs : list File) :
  interactive a = true ->
  let picked := step validateImageFile a (ImageChange fs) in
  let dropped := step validateImageFile a (Drop fs) in
  current dropped = with_isDragging false (current picked) /\
  live_handles (machine dropped) = live_handles (machine picked) /\
  next_handle (machine dropped) = next_handle (machine picked) /\
  timers (machine dropped) = timers (machine picked) /\
  inflight dropped = inflight picked.
Proof.
  intros I. cbv zeta. unfold step. rewrite I.
  destruct a as [mt ss [p lg nh tm] fl].
  destruct p as [im pv dr tq tn sd er su sb].
  unfold dispatch, exec, handleImageChange, handleDrop, current, bind,
    preventDefault, setIsDragging, perform.
  cbn [machine page].
  destruct fs as [|f rest].
  - unfold live_handles. unfold_step. destruct pv; rewrite ?Nat.eqb_refl;
      cbn [log page next_handle timers]; rewrite <- ?app_assoc, !live_after_app;
      repeat split.
  - destruct (valid (validateImageFile f)) eqn:V.
    + rewrite !(handleImageFile_valid validateImageFile _ _ _ V).
      unfold live_handles. unfold_step.
      destruct pv as [h|]; [destruct (Nat.eqb h nh)|]; cbn [revokes];
        cbn [log page next_handle timers]; rewrite <- ?app_assoc, !live_after_app;
        repeat split.
    + rewrite !(handleImageFile_invalid validateImageFile _ _ _ V).
      unfold live_handles. unfold_step. destruct pv; rewrite ?Nat.eqb_refl;
        cbn [log page next_handle timers]; rewrite <- ?app_assoc, !live_after_app;
        repeat split.
Qed.

(** *** After a failure, and after the tear-down *)


(** X9: the tear-down cancels neither a request in flight nor the
    navigation that follows its success: when the answer arrives after
    the tear-down, the state is left alone, yet the timer is set, and
    when it fires the navigation to [/contribution] takes place. *)
Theorem teardown_cancels_nothing (a : App) (i : nat) (snap : PageState)
    (status : Z) (json : JSON) :
  let down := step validateImageFile a Unmount in
  let settled :=
    step validateImageFile down (FetchSettled i (Responded status (Parsed json))) in
  let fired := step validateImageFile settled TimerFired in
  nth_error (inflight a) i = Some snap ->
  ok status = true ->
  timers (machine a) = [] ->
  inflight down = inflight a /\
  timers (machine down) = [] /\
  current settled = current down /\
  timers (machine settled) = [("/contribution", 2000)] /\
  log (machine fired) = log (machine settled) ++ [RouterPush "/contribution"] /\
  timers (machine fired) = [] /\
  mounted fired = false.
Proof.
  cbv zeta. intros N Ok T.
  destruct a as [mt ss [p lg nh tm] fl].
  cbn [machine timers inflight] in N, T. subst tm.
  assert (D : exists lg',
             step validateImageFile
               {| mounted := mt; session := ss;
                  machine := {| page := p; log := lg; next_handle := nh;
                                timers := [] |};
                  inflight := fl |} Unmount =
             {| mounted := false; session := ss;
                machine := {| page := p; log := lg'; next_handle := nh;
                              timers := [] |};
                inflight := fl |}).
  { unfold step. cbn [mounted]. destruct mt.
    - unfold previewCleanup, exec, current, revoke_if_present. cbn [machine page].
      destruct (previewUrl p); eexists; reflexivity.
    - eexists; reflexivity. }
  destruct D as (lg' & ->).
  match goal with
  | |- context [step validateImageFile ?d (FetchSettled i ?o)] =>
      assert (S : step validateImageFile d (FetchSettled i o) =
                  {| mounted := false; session := ss;
                     machine := with_page p
                                  (snd (handleSubmit_resume snap o (machine d)));
                     inflight := remove_nth i fl |})
        by (unfold step; cbn [inflight mounted]; rewrite N; reflexivity)
  end.
  rewrite S. clear S. rewrite handleSubmit_resume_run.
  unfold thrown_message. rewrite Ok. unfold step. cbn. repeat split.
Qed.

(** *** While the session is resolving *)

(** X13: while the session is resolving, both pages show the spinner
    and navigate nowhere, and the plant page ignores every event that
    needs its form. *)
Theorem resolving_shows_spinner (a : App) (e : Event) (b : Home.App)
    (param : option string) :
  loading (session a) = true ->
  loading (Home.session b) = true ->
  render (session a) (current a) = Spinner /\
  log (machine (mount (session a))) = [] /\
  (is_form_event e = true -> step validateImageFile a e = a) /\
  Home.render b = Home.Spinner /\
  Home.pushes (Home.log (Home.mount (Home.session b) param)) = [].
Proof.
  intros L Lb.
  assert (R : render (session a) (current a) = Spinner).
  { unfold render. rewrite L. reflexivity. }
  split; [exact R|]. split; [|split; [|split]].
  - unfold mount, redirectEffect. rewrite L. reflexivity.
  - intros F. destruct e; try discriminate F;
      unfold step, interactive, can_submit; rewrite R, andb_false_r; reflexivity.
  - unfold Home.render. rewrite Lb. reflexivity.
  - unfold Home.mount, Home.redirectEffect. rewrite Lb. cbn [negb andb Home.log app].
    rewrite pushes_app. unfold Home.authModalEffect.
    destruct param as [v|]; [destruct (v =? "true")%string|]; reflexivity.
Qed.

End Further.

(** *** The landing page *)

(** X14: the landing page opens its sign-in prompt at mount exactly when
    the [auth_required] parameter is the text [true], and shows it
    exactly when, besides, the session is resolved and has no identity;
    closing the prompt hides it. *)
Theorem prompt_on_marker (s : Session) (param : option string) :
  (Home.showAuthModal (Home.mount s param) = true <-> param = Some "true") /\
  (Home.render (Home.mount s param) = Home.Landing true <->
   loading s = false /\ user s = None /\ param = Some "true") /\
  (Home.render (Home.mount s param) = Home.Landing true ->
   Home.render (Home.step (Home.mount s param) Home.CloseModal) = Home.Landing false).
Proof.
  assert (M : Home.showAuthModal (Home.mount s param) = true <-> param = Some "true").
  { unfold Home.mount, Home.redirectEffect, Home.authModalEffect.
    cbn [Home.showAuthModal].
    destruct (negb (loading s) && _); destruct param as [v|]; cbn;
      try (split; discriminate).
    - destruct (String.eqb_spec v "true"); cbn; split; intros H;
        try reflexivity; try discriminate; try congruence.
    - destruct (String.eqb_spec v "true"); cbn; split; intros H;
        try reflexivity; try discriminate; try congruence. }
  split; [exact M|].
  assert (R : Home.render (Home.mount s param) =
              if loading s then Home.Spinner
              else match user s with
                   | Some _ => Home.Nothing
                   | None => Home.Landing (Home.showAuthModal (Home.mount s param))
                   end) by reflexivity.
  split.
  - rewrite R. destruct (loading s); [split; [discriminate|intros (H & _); discriminate H]|].
    destruct (user s); [split; [discriminate|intros (_ & H & _); discriminate H]|].
    split.
    + intros H. injection H as H. repeat split. apply M, H.
    + intros (_ & _ & H). f_equal. apply M, H.
  - intros H. unfold Home.step. rewrite H. rewrite R in H. unfold Home.render.
    cbn [Home.session Home.showAuthModal].
    change (Home.session (Home.mount s param)) with s.
    destruct (loading s); [discriminate H|].
    destruct (user s); [discriminate H|]. reflexivity.
Qed.

(** X15: whatever the answer to the request for the statistics, the
    effect lets no error escape; the statistics change only on a 2xx
    answer whose body parses, and then to that body; an answer outside
    2xx is passed over in silence, its body unread; a rejected request
    and a 2xx body that does not parse are written to the console. *)
Theorem stats_failures_stay_silent (o : FetchOutcome) (st : Stats.State) :
  let st' := snd (Stats.fetchStats_resume o st) in
  fst (Stats.fetchStats_resume o st) = Value tt /\
  match o with
  | Responded status (Parsed data) =>
      if ok status
      then Stats.stats st' = data /\
           Stats.log st' = Stats.log st ++ [Stats.SetStats data]
      else st' = st
  | Responded status (Unparsable message) =>
      Stats.stats st' = Stats.stats st /\
      Stats.log st' =
        Stats.log st ++
        (if ok status then [Stats.ConsoleError "Error fetching stats:" message]
         else [])
  | Rejected message =>
      Stats.stats st' = Stats.stats st /\
      Stats.log st' =
        Stats.log st ++ [Stats.ConsoleError "Error fetching stats:" message]
  end.
Proof.
  destruct st as [stats log].
  destruct o as [message | status [data | message]]; cbv zeta;
    unfold Stats.fetchStats_resume, Stats.try_catch, Stats.bind, Stats.await_fetch,
      Stats.await_json, Stats.ret, Stats.throw, Stats.setStats, Stats.consoleError;
    cbn [fst snd]; try destruct (ok status); cbn;
    rewrite ?app_nil_r; repeat split.
Qed.

(* ------------------------------------------------------------------ *)
(** ** The further properties on examples *)

(** The quantity 3 of the filled-in form, typed again. *)
Lemma quantity_text_round_trip_witness :
  let a := run caption_policy (mount signed_in) fill_in in
  Z.abs 3 <= 2 ^ 53 /\ interactive a = true /\ 1 <= 3 /\
  treeQuantity
    (current (step caption_policy a (QuantityChange (number_toString 3)))) = 3.
Proof.
  cbv zeta.
  assert (B : Z.abs 3 <= 2 ^ 53) by (vm_compute; discriminate).
  assert (I : interactive (run caption_policy (mount signed_in) fill_in) = true)
    by by_evaluation.
  assert (Q : 1 <= 3) by lia.
  exact (conj B (conj I (conj Q
           (proj2 (quantity_text_round_trip caption_policy 3
                     (run caption_policy (mount signed_in) fill_in) B) I Q)))).
Defined.

(** Beyond 2^53 the text is that of the nearest double, and from 10^21 on
    it carries an exponent, of which [parseInt] reads the digits before
    the point: the quantity 10^21 is sent as [1e+21], which is read as 1. *)
Example exponent_text :
  number_toString (2 ^ 53 + 1) = "9007199254740992" /\
  number_toString (2 ^ 64) = "18446744073709552000" /\
  number_toString (10 ^ 21 - 1) = "1e+21" /\
  number_toString (10 ^ 21) = "1e+21" /\
  number_toString (2 ^ 70) = "1.1805916207174113e+21" /\
  number_toString (10 ^ 400) = "Infinity" /\
  parseInt "1e+21" = Some 1 /\
  treeQuantity
    (current (step caption_policy filled (QuantityChange "1000000000000000000000")))
    = 10 ^ 21 /\
  formData_get "treeQuantity"
    (build_formData pune neem_photo
       (current (step caption_policy filled (QuantityChange "1000000000000000000000")))
       (Some asha)) = Some (Text "1e+21").
Proof. vm_compute. repeat split. Qed.

(** The request of the filled-in form. *)
Lemma requests_well_formed_witness :
  let body := build_formData pune neem_photo (current filled) (Some asha) in
  In (Fetch "/api/plant" "POST" body)
     (log (machine (run caption_policy (mount signed_in) (fill_in ++ [Submit])))) /\
  well_formed body.
Proof.
  cbv zeta.
  assert (H : In (Fetch "/api/plant" "POST"
                    (build_formData pune neem_photo (current filled) (Some asha)))
                 (log (machine (run caption_policy (mount signed_in)
                                  (fill_in ++ [Submit]))))).
  { vm_compute. do 13 right. left. reflexivity. }
  exact (conj H (proj2 (proj2 (requests_well_formed caption_policy signed_in
                                 (fill_in ++ [Submit]) _ _ _ H)))).
Defined.

(** A leaflet is offered to the filled-in form. *)
Lemma invalid_file_keeps_draft_witness :
  interactive filled = true /\
  valid (caption_policy leaflet) = false /\
  image (current (step caption_policy filled (ImageChange [leaflet]))) =
    image (with_error (Some "Unsupported image type") (current filled)).
Proof.
  assert (I : interactive filled = true) by by_evaluation.
  assert (V : valid (caption_policy leaflet) = false) by by_evaluation.
  pose proof (invalid_file_keeps_draft caption_policy filled leaflet [] I V) as T.
  cbv zeta in T. destruct T as (E & _).
  split; [exact I|]. split; [exact V|].
  rewrite E. vm_compute. reflexivity.
Defined.

(** A drop without files on the filled-in form. *)
Lemma no_file_no_change_witness :
  interactive filled = true /\
  current (step caption_policy filled (Drop [])) =
    with_isDragging false (current filled).
Proof.
  assert (I : interactive filled = true) by by_evaluation.
  pose proof (proj2 (no_file_no_change caption_policy filled) I) as T.
  cbv zeta in T. exact (conj I (proj1 T)).
Defined.

(** A second photo dropped on, or picked for, the filled-in form. *)
Lemma drop_like_pick_witness :
  interactive filled = true /\
  current (step caption_policy filled (Drop [peepal_photo])) =
    with_isDragging false
      (current (step caption_policy filled (ImageChange [peepal_photo]))).
Proof.
  assert (I : interactive filled = true) by by_evaluation.
  pose proof (drop_like_pick caption_policy filled [peepal_photo] I) as T.
  cbv zeta in T. exact (conj I (proj1 T)).
Defined.

(** The filled-in form is submitted. *)
Lemma quantity_check_never_fails_witness :
  let a := run caption_policy (mount signed_in) fill_in in
  can_submit a = true /\
  error (current (step caption_policy a Submit)) <>
    Some "Please enter a valid number of trees".
Proof.
  cbv zeta.
  assert (C : can_submit (run caption_policy (mount signed_in) fill_in) = true)
    by by_evaluation.
  pose proof (quantity_check_never_fails caption_policy signed_in fill_in) as T.
  cbv zeta in T. exact (conj C (proj2 T C)).
Defined.


(** The component is torn down with its request in flight; the answer
    arrives, the timer fires. *)
Lemma teardown_cancels_nothing_witness :
  let down := step caption_policy submitted Unmount in
  let settled :=
    step caption_policy down (FetchSettled 0 (Responded 200 (Parsed (JObj [])))) in
  let fired := step caption_policy settled TimerFired in
  nth_error (inflight submitted) 0 = Some (current filled) /\
  ok 200 = true /\
  timers (machine submitted) = [] /\
  log (machine fired) = log (machine settled) ++ [RouterPush "/contribution"].
Proof.
  cbv zeta.
  assert (N : nth_error (inflight submitted) 0 = Some (current filled))
    by by_evaluation.
  assert (K : ok 200 = true) by by_evaluation.
  assert (T : timers (machine submitted) = []) by by_evaluation.
  pose proof (teardown_cancels_nothing caption_policy submitted 0%nat
                (current filled) 200 (JObj [])) as R.
  cbv zeta in R. destruct (R N K T) as (_ & _ & _ & _ & L & _).
  exact (conj N (conj K (conj T L))).
Defined.

(** Both pages under a session that is resolving. *)
Lemma resolving_shows_spinner_witness :
  loading (session (mount resolving)) = true /\
  loading (Home.session (Home.mount resolving None)) = true /\
  render (session (mount resolving)) (current (mount resolving)) = Spinner /\
  step caption_policy (mount resolving) Submit = mount resolving.
Proof.
  assert (L : loading (session (mount resolving)) = true) by reflexivity.
  assert (Lb : loading (Home.session (Home.mount resolving None)) = true)
    by reflexivity.
  destruct (resolving_shows_spinner caption_policy (mount resolving) Submit
              (Home.mount resolving None) None L Lb) as (R & _ & F & _).
  exact (conj L (conj Lb (conj R (F eq_refl)))).
Defined.

(** The landing page reached with the marker of the plant page. *)
Lemma prompt_on_marker_witness :
  Home.showAuthModal (Home.mount signed_out (Some "true")) = true /\
  Home.render (Home.mount signed_out (Some "true")) = Home.Landing true.
Proof.
  destruct (prompt_on_marker signed_out (Some "true")) as (M & R & _).
  split.
  - apply M. reflexivity.
  - apply R. repeat split.
Defined.
